(** * Timetable scheduler front end: the job-orchestration client

    A shallow embedding of [services/api.js] (retry wrapper, upload, status
    poller, export) and of the progress observer and upload-id extraction of
    [components/TimetableGenerator.js], with the properties of the
    specification stated over it.

    Conventions of the embedding:
    - a JavaScript value is a term of [value]; objects are association lists
      in property order, arrays are lists;
    - numbers are rationals extended with NaN and the two infinities, which
      is all that comparison and clamping need (no rounding is modelled);
    - strings are [string]s; [toLowerCase] folds the ASCII letters;
    - an asynchronous function is a state transformer over a [world] that
      holds the invocation count of the request function and the trace of
      observable events (requests, timer waits, observer calls);
    - [console.log] and friends are diagnostics and are left out, and so
      are the axios interceptors and [generateTimetable], which only wraps
      the poller. *)

From Stdlib Require Import Bool List String Ascii ZArith QArith Qminmax Lia Lqa.
From Stdlib Require Import DecimalString Sorted.
Import ListNotations.

Local Open Scope string_scope.

(** ** Numbers *)

Module Num.

Inductive number :=
| NaN
| NegInf
| Fin (q : Q)
| PosInf.

Definition of_Z (z : Z) : number := Fin (inject_Z z).

(** [a <= b] on JavaScript numbers; every comparison with NaN is false. *)
Definition leb (a b : number) : bool :=
  match a, b with
  | NaN, _ | _, NaN => false
  | NegInf, _ => true
  | _, PosInf => true
  | Fin p, Fin q => Qle_bool p q
  | _, _ => false
  end.

Definition le (a b : number) : Prop := leb a b = true.

(** [Math.max(a, b)] *)
Definition max (a b : number) : number :=
  match a, b with
  | NaN, _ | _, NaN => NaN
  | PosInf, _ | _, PosInf => PosInf
  | NegInf, x | x, NegInf => x
  | Fin p, Fin q => if Qle_bool p q then Fin q else Fin p
  end.

(** [Math.min(a, b)] *)
Definition min (a b : number) : number :=
  match a, b with
  | NaN, _ | _, NaN => NaN
  | NegInf, _ | _, NegInf => NegInf
  | PosInf, x | x, PosInf => x
  | Fin p, Fin q => if Qle_bool p q then Fin p else Fin q
  end.

Definition is_NaN (a : number) : bool :=
  match a with NaN => true | _ => false end.

(** The number is [0] (or [-0]). *)
Definition is_zero (a : number) : bool :=
  match a with Fin q => Qeq_bool q 0 | _ => false end.

End Num.

(** ** Values *)

#[local] Set Warnings "-register-all".

Inductive value :=
| JUndefined
| JNull
| JBool (b : bool)
| JNum (n : Num.number)
| JStr (s : string)
| JArr (elements : list value)
| JObj (properties : list (string * value)).

Definition JInt (z : Z) : value := JNum (Num.of_Z z).

(** ToBoolean *)
Definition truthy (v : value) : bool :=
  match v with
  | JUndefined | JNull => false
  | JBool b => b
  | JNum n => negb (Num.is_NaN n || Num.is_zero n)
  | JStr s => negb (s =? "")
  | JArr _ | JObj _ => true
  end.

(** [a || b] on values that are already evaluated (the right operand of
    every [||] in the modelled code is free of effects). *)
Definition or_else (a b : value) : value := if truthy a then a else b.

(** [a && b], likewise. *)
Definition and_then (a b : value) : value := if truthy a then b else a.

Notation "a '|||' b" := (or_else a b) (at level 50, left associativity).

Definition nullish (v : value) : bool :=
  match v with JUndefined | JNull => true | _ => false end.

(** [typeof v === 'number'] *)
Definition is_number (v : value) : bool :=
  match v with JNum _ => true | _ => false end.

(** [Array.isArray(v)] *)
Definition is_array (v : value) : bool :=
  match v with JArr _ => true | _ => false end.

(** [v === s] for a string literal [s] *)
Definition is_string (v : value) (s : string) : bool :=
  match v with JStr t => t =? s | _ => false end.

(** ** Objects *)

Fixpoint lookup (o : list (string * value)) (key : string) : value :=
  match o with
  | [] => JUndefined
  | (k, v) :: rest => if k =? key then v else lookup rest key
  end.

(** Assignment to a property: an existing key keeps its place, a new one
    goes last. *)
Fixpoint assign (o : list (string * value)) (key : string) (x : value)
  : list (string * value) :=
  match o with
  | [] => [(key, x)]
  | (k, v) :: rest =>
      if k =? key then (k, x) :: rest else (k, v) :: assign rest key x
  end.

Definition index_key (i : nat) : string :=
  NilZero.string_of_uint (Nat.to_uint i).

Fixpoint chars (s : string) : list value :=
  match s with
  | EmptyString => []
  | String c rest => JStr (String c EmptyString) :: chars rest
  end.

(** [v.key] for a named (non-index, non-builtin) key, on a base that is not
    null or undefined.  Only objects carry such properties; on the other
    values the lookup gives [undefined].  Every access in the modelled code
    whose base may be null or undefined is guarded there and raises the
    TypeError itself. *)
Definition prop (v : value) (key : string) : value :=
  match v with
  | JObj o => lookup o key
  | _ => JUndefined
  end.

(** [v?.key] *)
Definition opt_prop (v : value) (key : string) : value :=
  if nullish v then JUndefined else prop v key.

(** [v[i]] for a number [i] that is an array index, on a non-nullish base. *)
Definition at_index (v : value) (i : nat) : value :=
  match v with
  | JArr l => nth i l JUndefined
  | JStr s => nth i (chars s) JUndefined
  | JObj o => lookup o (index_key i)
  | _ => JUndefined
  end.

(** [v.key = x]; on a primitive the assignment is lost. *)
Definition set_prop (v : value) (key : string) (x : value) : value :=
  match v with
  | JObj o => JObj (assign o key x)
  | _ => v
  end.

Fixpoint indexed (i : nat) (l : list value) : list (string * value) :=
  match l with
  | [] => []
  | x :: rest => (index_key i, x) :: indexed (S i) rest
  end.

(** The own enumerable properties copied by [{...v}]. *)
Definition spread (v : value) : list (string * value) :=
  match v with
  | JObj o => o
  | JArr l => indexed 0 l
  | JStr s => indexed 0 (chars s)
  | _ => []
  end.

(** ** Strings *)

Definition lower_ascii (c : ascii) : ascii :=
  let n := nat_of_ascii c in
  if (65 <=? n)%nat && (n <=? 90)%nat then ascii_of_nat (n + 32) else c.

(** [s.toLowerCase()] *)
Fixpoint toLowerCase (s : string) : string :=
  match s with
  | EmptyString => EmptyString
  | String c rest => String (lower_ascii c) (toLowerCase rest)
  end.

(** [hay.includes(needle)] *)
Fixpoint includes (hay needle : string) : bool :=
  String.prefix needle hay ||
  match hay with
  | EmptyString => false
  | String _ rest => includes rest needle
  end.

(** [s.endsWith(suffix)] *)
Fixpoint endsWith (s suffix : string) : bool :=
  (s =? suffix) ||
  match s with
  | EmptyString => false
  | String _ rest => endsWith rest suffix
  end.

(** ** Asynchronous computations

    A thrown [Error] object; only its message is ever inspected. *)

Inductive exn :=
| Error (message : string).

Definition message (e : exn) : string :=
  match e with Error m => m end.

(** What a run lets an outside observer see, in order. *)
Inductive event :=
| Call                            (* the request function is invoked *)
| Wait (ms : Z)                   (* a [setTimeout] delay elapses *)
| Observe (progressData : value)  (* [progressCallback(progressData)] *)
| Download (filename : string).   (* a click on a link with this [download] *)

Record world := {
  calls : nat;          (* invocations of the request function so far *)
  trace : list event
}.

Inductive result (A : Type) :=
| Ok (a : A)
| Throw (e : exn)
| OutOfFuel.

Arguments Ok {A} a.
Arguments Throw {A} e.
Arguments OutOfFuel {A}.

Definition M (A : Type) : Type := world -> result A * world.

Definition ret {A} (a : A) : M A := fun w => (Ok a, w).

Definition throw {A} (e : exn) : M A := fun w => (Throw e, w).

Definition bind {A B} (m : M A) (k : A -> M B) : M B :=
  fun w =>
    match m w with
    | (Ok a, w') => k a w'
    | (Throw e, w') => (Throw e, w')
    | (OutOfFuel, w') => (OutOfFuel, w')
    end.

(** [try { m } catch (error) { handler }] *)
Definition try_catch {A} (m : M A) (handler : exn -> M A) : M A :=
  fun w =>
    match m w with
    | (Throw e, w') => handler e w'
    | r => r
    end.

Definition emit (e : event) : M unit :=
  fun w => (Ok tt, {| calls := calls w; trace := trace w ++ [e] |}).

(** [await new Promise(resolve => setTimeout(resolve, ms))] *)
Definition sleep (ms : Z) : M unit := emit (Wait ms).

Notation "x <- m ;; k" := (bind m (fun x => k))
  (at level 61, m at next level, right associativity).
Notation "m ;;; k" := (bind m (fun _ => k))
  (at level 61, right associativity).

(** A request function has effects, so two invocations may differ.  It is
    given by the outcomes of its successive invocations; invoking it takes
    the next outcome. *)
Inductive outcome :=
| Fulfilled (response : value)
| Failed (e : exn).

Definition script : Type := nat -> outcome.

Definition invoke (requestFn : script) : M value :=
  fun w =>
    let w' := {| calls := S (calls w); trace := trace w ++ [Call] |} in
    match requestFn (calls w) with
    | Fulfilled r => (Ok r, w')
    | Failed e => (Throw e, w')
    end.

(** ** Retry wrapper ([makeRequestWithRetry]) *)

(** The test on the lower-cased message that marks an error as temporary
    ([error?.message || ''] is the message: it is always a string here). *)
Definition transient (error : exn) : bool :=
  let msg := message error in
  includes (toLowerCase msg) "cors"
  || includes (toLowerCase msg) "backend"
  || includes (toLowerCase msg) "network".

(** The [for (let i = 0; i < retries; i++)] loop from index [i] on. *)
Fixpoint retry_loop (requestFn : M value) (retries : Z) (fuel : nat) (i : Z)
  : M value :=
  if (i <? retries)%Z then
    match fuel with
    | O => fun w => (OutOfFuel, w)
    | S fuel' =>
        try_catch requestFn (fun error =>
          if (i =? retries - 1)%Z then throw error
          else if transient error then
            sleep (1000 * (i + 1)) ;;;
            retry_loop requestFn retries fuel' (i + 1)%Z
          else throw error)
    end
  else ret JUndefined.

(** The budget is an integer; callers pass none and get [default_retries].
    The fuel is the number of indices below [retries], which the loop never
    exceeds ([retry_loop_total]). *)
Definition makeRequestWithRetry (requestFn : M value) (retries : Z) : M value :=
  retry_loop requestFn retries (Z.to_nat retries) 0%Z.

Definition default_retries : Z := 3.

(** The transport.  The remote server is a [script]: the outcome of each
    HTTP exchange in turn, already passed through the response interceptor,
    which turns every failure into [new Error(message)].  The URL and the
    body do not select the outcome. *)
Definition apiClient_get (net : script) (url : string) : M value :=
  invoke net.

Definition apiClient_post (net : script) (url : string) (body : value)
  : M value :=
  invoke net.

(** ** Status poller ([pollForCompletion]) *)

Definition maxAttempts : Z := 120.

Record normalized := {
  n_status : value;
  n_progress : value;
  n_message : value;
  n_result : value;
  n_error : value
}.

Definition set_status (n : normalized) (s : value) : normalized :=
  {| n_status := s;
     n_progress := n_progress n;
     n_message := n_message n;
     n_result := n_result n;
     n_error := n_error n |}.

(** The object literal that reads the raw fields. *)
Definition read_fields (statusData : value) : normalized :=
  {| n_status :=
       prop statusData "status" ||| prop statusData "State"
       ||| prop statusData "state";
     n_progress :=
       if is_number (prop statusData "progress")
       then prop statusData "progress" else JInt 0;
     n_message := prop statusData "message" ||| JStr "";
     n_result := prop statusData "result";
     n_error := prop statusData "error" ||| prop statusData "Error" |}.

(** The three [if (!normalized.status ...)] statements, in order. *)
Definition infer_status (n0 : normalized) : normalized :=
  let n1 :=
    if negb (truthy (n_status n0)) && truthy (n_result n0)
    then set_status n0 (JStr "completed") else n0 in
  let n2 :=
    if negb (truthy (n_status n1)) && truthy (n_error n1)
    then set_status n1 (JStr "error") else n1 in
  if negb (truthy (n_status n2))
  then set_status n2 (JStr "processing") else n2.

Definition normalize (statusData : value) : normalized :=
  infer_status (read_fields statusData).

(** [statusResponse && statusResponse.data ? statusResponse.data : {}] *)
Definition status_data (statusResponse : value) : value :=
  if truthy (and_then statusResponse (prop statusResponse "data"))
  then prop statusResponse "data" else JObj [].

(** The callback of [timetables.map]: one merged entry. *)
Definition merge_entry (parsed_timetables timetable : value) (index : nat)
  : value :=
  let parsed := at_index parsed_timetables index in
  JObj (assign (spread timetable) "rows"
          (if truthy parsed then prop parsed "rows" else JArr [])).

(** [array.map((x, index) => f x index)], from position [index] on. *)
Fixpoint map_from (f : value -> nat -> value) (index : nat) (l : list value)
  : list value :=
  match l with
  | [] => []
  | x :: rest => f x index :: map_from f (S index) rest
  end.

(** The body of [if (result) { ... }] on a completed job.  The object is
    updated in place in the source; nothing else holds a reference that is
    read afterwards, so the updated object is returned. *)
Definition merge_result (result0 : value) : M value :=
  let result1 :=
    if negb (truthy (prop result0 "timetables"))
       && truthy (prop result0 "timetables_raw")
    then set_prop result0 "timetables" (prop result0 "timetables_raw")
    else result0 in
  if truthy (prop result1 "parsed_timetables")
     && truthy (prop result1 "timetables")
  then
    match prop result1 "timetables" with
    | JArr timetables =>
        ret (set_prop result1 "timetables"
               (JArr (map_from
                        (merge_entry (prop result1 "parsed_timetables"))
                        0 timetables)))
    | _ => throw (Error "result.timetables.map is not a function")
    end
  else ret result1.

(** How the promise of the poller settles.  [Rejected m] is
    [reject(new Error(m))]: the reason is an [Error] whose message is the
    string conversion of [m], which is [m] itself when [m] is a string. *)
Inductive settled :=
| Resolved (result : value)
| Rejected (reason : value).

Inductive step :=
| Done (s : settled)
| Again.            (* [setTimeout(checkStatus, 5000)] was scheduled *)

(** [if (progressCallback) progressCallback(progressData)]; the flag tells
    whether the caller passed an observer, which is taken to return
    normally. *)
Definition notify (progressCallback : bool) (progressData : value) : M unit :=
  if progressCallback then emit (Observe progressData) else ret tt.

Definition progress_data (percentage message : value) : value :=
  JObj [("percentage", percentage); ("message", message)].

(** One run of the [try]/[catch] of [checkStatus], [attempts] being the
    counter after its increment. *)
Definition poll_once (net : script) (uploadId : string)
    (progressCallback : bool) (attempts : Z) : M step :=
  try_catch
    (statusResponse <-
       makeRequestWithRetry
         (apiClient_get net ("/get-timetable-status/" ++ uploadId))
         default_retries ;;
     let statusData := status_data statusResponse in
     let normalized := normalize statusData in
     notify progressCallback
       (progress_data (n_progress normalized)
          (n_message normalized ||| JStr "Processing...")) ;;;
     if is_string (n_status normalized) "completed" then
       merged <-
         (if truthy (n_result normalized)
          then merge_result (n_result normalized)
          else ret (n_result normalized)) ;;
       notify progressCallback
         (progress_data (JInt 100) (JStr "Completed")) ;;;
       ret (Done (Resolved merged))
     else if is_string (n_status normalized) "error" then
       ret (Done (Rejected (n_error normalized ||| JStr "Generation failed")))
     else if (maxAttempts <=? attempts)%Z then
       ret (Done (Rejected (JStr "Generation timeout - please try again")))
     else ret Again)
    (fun error =>
       if includes (message error) "CORS" then
         ret (Done (Rejected (JStr
           "CORS policy is blocking requests to the backend. Please check the server configuration.")))
       else ret (Done (Rejected (JStr (message error))))).

(** [checkStatus], called with the current value of [attempts]; it returns
    how the promise settled and the final value of the counter. *)
Fixpoint checkStatus (net : script) (uploadId : string)
    (progressCallback : bool) (fuel : nat) (attempts : Z)
  : M (settled * Z) :=
  match fuel with
  | O => fun w => (OutOfFuel, w)
  | S fuel' =>
      let attempts' := (attempts + 1)%Z in
      s <- poll_once net uploadId progressCallback attempts' ;;
      match s with
      | Done r => ret (r, attempts')
      | Again =>
          sleep 5000 ;;;
          checkStatus net uploadId progressCallback fuel' attempts'
      end
  end.

Definition pollForCompletion (net : script) (uploadId : string)
    (progressCallback : bool) : M (settled * Z) :=
  checkStatus net uploadId progressCallback (Z.to_nat maxAttempts) 0%Z.

Definition start : world := {| calls := 0; trace := [] |}.

(** ** The progress observer of [TimetableGenerator.startGeneration] *)

Record ui := {
  progress : Num.number;
  progressText : value
}.

Definition setProgress (p : Num.number) (u : ui) : ui :=
  {| progress := p; progressText := progressText u |}.

Definition setProgressText (t : value) (u : ui) : ui :=
  {| progress := progress u; progressText := t |}.

(** [Math.min(Math.max(pct, 30), 100)] *)
Definition clampedProgress (pct : Num.number) : Num.number :=
  Num.min (Num.max pct (Num.of_Z 30)) (Num.of_Z 100).

Definition progressCallback (progressData : value) (u : ui) : ui :=
  if negb (truthy progressData) then u
  else
    let pct :=
      if is_number (prop progressData "percentage")
      then prop progressData "percentage" else JNull in
    let u1 :=
      match pct with
      | JNum p => setProgress (clampedProgress p) u
      | _ => u
      end in
    if truthy (prop progressData "message")
    then setProgressText (prop progressData "message") u1
    else u1.

(** The state [startGeneration] sets before it calls [generateTimetable]. *)
Definition polling_begins : ui :=
  {| progress := Num.of_Z 30;
     progressText := JStr "Starting timetable generation..." |}.

(** The arguments the observer was called with, in order. *)
Fixpoint observations (tr : list event) : list value :=
  match tr with
  | [] => []
  | Observe progressData :: rest => progressData :: observations rest
  | _ :: rest => observations rest
  end.

(** The [progress] state after each observer call, in order. *)
Fixpoint displayed (calls : list value) (u : ui) : list Num.number :=
  match calls with
  | [] => []
  | progressData :: rest =>
      let u' := progressCallback progressData u in
      progress u' :: displayed rest u'
  end.

(** The percentage of each observer call, [None] when it is not a number. *)
Definition percentage_of (progressData : value) : option Num.number :=
  match prop progressData "percentage" with
  | JNum p => Some p
  | _ => None
  end.

(** ** Upload ([uploadFile] and the extraction in [handleGenerate]) *)

(** The message of the TypeError raised by reading [key] from [base] when
    [base] is null or undefined (wording of V8). *)
Definition cannot_read (base : value) (key : string) : exn :=
  Error ("Cannot read properties of "
         ++ (match base with JNull => "null" | _ => "undefined" end)
         ++ " (reading '" ++ key ++ "')").

Definition uploadEndpoint : string := "/upload-excel".

(** [formData] stands for the multipart body built from the file. *)
Definition uploadFile (net : script) (formData : value) : M value :=
  try_catch
    (response <-
       makeRequestWithRetry (apiClient_post net uploadEndpoint formData)
         default_retries ;;
     if nullish response then throw (cannot_read response "data")
     else
       let data := prop response "data" in
       if nullish data then throw (cannot_read data "upload_id")
       else
         let uploadId :=
           prop data "upload_id" ||| prop data "uploadId" ||| prop data "id" in
         if negb (truthy uploadId)
         then throw (Error "upload_id not returned by server")
         else ret (JObj [("uploadId", uploadId); ("meta", data)]))
    (fun err =>
       (* [err?.response?.data?.error] is undefined: the errors that reach
          this handler are plain [Error]s *)
       let message :=
         if message err =? "" then "Upload failed" else message err in
       throw (Error ("File upload failed: " ++ message))).

(** The defensive read of [handleGenerate]. *)
Definition currentUploadId (uploadResponse : value) : value :=
  opt_prop uploadResponse "uploadId"
  ||| opt_prop uploadResponse "upload_id"
  ||| opt_prop uploadResponse "fileId"
  ||| opt_prop uploadResponse "id"
  ||| and_then (opt_prop uploadResponse "meta")
        (let meta := prop uploadResponse "meta" in
         prop meta "upload_id" ||| prop meta "uploadId" ||| prop meta "id").

(** The upload step of [handleGenerate]: upload, then extract the id or
    throw.  [JSON_stringify] is the serializer of the host. *)
Definition handleGenerate_upload (JSON_stringify : value -> string)
    (net : script) (formData : value) : M value :=
  uploadResponse <- uploadFile net formData ;;
  let id := currentUploadId uploadResponse in
  if negb (truthy id) then
    throw (Error ("Upload ID not returned by server. Response: "
                  ++ JSON_stringify uploadResponse))
  else ret id.

(** ** Export ([downloadTimetable]) *)

(** The body of the export request. *)
Definition export_body (uploadId format : string) : value :=
  JObj [("upload_id", JStr uploadId); ("format", JStr (toLowerCase format))].

(** The name given to the downloaded file; [timestamp] is
    [new Date().toISOString().slice(0, 10)]. *)
Definition download_filename (timestamp format : string) : string :=
  "timetable_" ++ timestamp ++ "."
  ++ (if format =? "pdf" then "pdf" else "xlsx").

(** The object URL is created, attached to a link that is clicked, and
    revoked; of these the click is recorded, with the file name. *)
Definition downloadTimetable (net : script) (timestamp : string)
    (uploadId format : string) : M value :=
  try_catch
    (response <-
       makeRequestWithRetry
         (apiClient_post net "/export-timetable" (export_body uploadId format))
         default_retries ;;
     if nullish response then throw (cannot_read response "data")
     else
       let filename := download_filename timestamp format in
       emit (Download filename) ;;;
       ret JUndefined)
    (fun error => throw (Error ("Download failed: " ++ message error))).

(** ** Reading a trace *)

(** Number of invocations of the request function. *)
Fixpoint invocations (tr : list event) : nat :=
  match tr with
  | [] => 0
  | Call :: rest => S (invocations rest)
  | _ :: rest => invocations rest
  end.

(** The timer delays, in order. *)
Fixpoint waits (tr : list event) : list Z :=
  match tr with
  | [] => []
  | Wait ms :: rest => ms :: waits rest
  | _ :: rest => waits rest
  end.

(** [m] failed invocations, each followed by its back-off delay, then one
    more invocation; [i] is the loop index of the first. *)
Fixpoint retry_trace (i : Z) (m : nat) : list event :=
  match m with
  | O => [Call]
  | S m' => Call :: Wait (1000 * (i + 1)) :: retry_trace (i + 1) m'
  end.

(** The first [m] invocations from the current one on fail with a temporary
    connectivity error. *)
Definition transient_failures (requestFn : script) (from m : nat) : Prop :=
  forall k, (k < m)%nat ->
    exists e, requestFn (from + k)%nat = Failed e /\ transient e = true.

Definition after_calls (w : world) (n : nat) (tr : list event) : world :=
  {| calls := calls w + n; trace := trace w ++ tr |}.

(** ** Sample servers and request functions *)

(** Two temporary failures, then a success. *)
Definition flaky : script :=
  fun k =>
    match k with
    | 0%nat => Failed (Error "Network Error")
    | 1%nat => Failed (Error "CORS error: Backend did not allow this origin.")
    | _ => Fulfilled (JStr "ok")
    end.

(** A server that sends the same status body at every poll. *)
Definition always (statusData : value) : script :=
  fun _ => Fulfilled (JObj [("data", statusData); ("status", JInt 200)]).

(** A server that sends the given status bodies in turn, then [last]. *)
Definition in_turn (bodies : list value) (last : value) : script :=
  fun k =>
    Fulfilled (JObj [("data", nth k bodies last); ("status", JInt 200)]).

(** ** Reading the observer calls *)

(** An observer call with a numeric percentage. *)
Definition numeric_call (progressData : value) : Prop :=
  truthy progressData = true /\ exists p, percentage_of progressData = Some p.

(** The last observer call of a completed job. *)
Definition completed_call : value :=
  progress_data (JInt 100) (JStr "Completed").

(** What a poll passes to the observer before it looks at the status. *)
Definition poll_call (statusResponse : value) : value :=
  let n := normalize (status_data statusResponse) in
  progress_data (n_progress n) (n_message n ||| JStr "Processing...").

Definition timeout_reason : value :=
  JStr "Generation timeout - please try again".


(** The status body of the specification's example, with the status value
    as given. *)
Definition raw_only (statusValue : string) (X : list value) : value :=
  JObj [("State", JStr statusValue);
        ("result", JObj [("timetables_raw", JArr X)])].

(** A completed result with three timetables and two parsed entries. *)
Definition three_and_two : value :=
  JObj [("status", JStr "completed");
        ("result",
         JObj [("timetables",
                JArr [JObj [("title", JStr "A")];
                      JObj [("title", JStr "B")];
                      JObj [("title", JStr "C")]]);
               ("parsed_timetables",
                JArr [JObj [("rows", JArr [JStr "a1"])];
                      JObj [("rows", JArr [JStr "b1"; JStr "b2"])]])])].

(** A completed result with as many parsed entries as timetables. *)
Definition two_and_two : value :=
  JObj [("status", JStr "completed");
        ("result",
         JObj [("timetables",
                JArr [JObj [("title", JStr "A")];
                      JObj [("title", JStr "B"); ("rows", JNull)]]);
               ("parsed_timetables",
                JArr [JObj [("rows", JArr [JStr "a1"])];
                      JObj [("rows", JArr [JStr "b1"; JStr "b2"])]])])].

(** A completed result with as many parsed entries as timetables, two of
    them falsy. *)
Definition falsy_parsed : value :=
  JObj [("status", JStr "completed");
        ("result",
         JObj [("timetables",
                JArr [JObj [("title", JStr "A")];
                      JObj [("title", JStr "B")];
                      JObj [("title", JStr "C")]]);
               ("parsed_timetables",
                JArr [JObj [("rows", JArr [JStr "a1"])]; JInt 0; JNull])])].

(** ** The normalization rule in words *)

(** The first candidate that is truthy, if any. *)
Definition first_truthy (candidates : list value) : option value :=
  find truthy candidates.

(** The status by ordered fallback: an explicit status under [status],
    [State] or [state]; else a result means completed; else an error under
    [error] or [Error] means error; else processing. *)
Definition reference_status (statusData : value) : value :=
  match first_truthy [prop statusData "status"; prop statusData "State";
                      prop statusData "state"] with
  | Some s => s
  | None =>
      if truthy (prop statusData "result") then JStr "completed"
      else
        match first_truthy [prop statusData "error";
                            prop statusData "Error"] with
        | Some _ => JStr "error"
        | None => JStr "processing"
        end
  end.

(** The field is there and is not null. *)
Definition present (v : value) : bool := negb (nullish v).

(** The reference definition as the specification words it: the keys
    [status], [State], [state] in that order; a present [result] infers
    completed, otherwise a present [error] infers error, otherwise
    processing.  The three status names are written as the poller compares
    them. *)
Definition spec_status (statusData : value) : value :=
  match find present [prop statusData "status"; prop statusData "State";
                      prop statusData "state"] with
  | Some s => s
  | None =>
      if present (prop statusData "result") then JStr "completed"
      else if present (prop statusData "error") then JStr "error"
      else JStr "processing"
  end.

(** Two polls whose progress goes down, then completion. *)
Definition regressing : script :=
  in_turn
    [JObj [("status", JStr "processing"); ("progress", JInt 80)];
     JObj [("status", JStr "processing"); ("progress", JInt 50)]]
    (JObj [("status", JStr "completed");
           ("result", JObj [("timetables", JArr [])])]).

(** A poll that reports a progress of 10. *)
Definition ten_percent : value :=
  JObj [("status", JStr "processing"); ("progress", JInt 10)].

(** The events a run from [start] produced. *)
Definition events {A} (run : result A * world) : list event :=
  trace (snd run).





(** ** Proof automation *)

(** Rewrite with the known truth values until the conditionals are gone. *)
Ltac decide_ifs :=
  repeat (match goal with
          | H : truthy ?v = _ |- context [truthy ?v] => rewrite H
          end; cbn iota).

(** Split on every comparison of rationals and state each outcome as an
    inequality. *)
Ltac q_cases :=
  repeat match goal with
         | |- context [Qle_bool ?p ?q] =>
             let H := fresh "H" in
             destruct (Qle_bool p q) eqn:H;
             [ apply Qle_bool_iff in H
             | apply not_true_iff_false in H; rewrite Qle_bool_iff in H ]
         | H : Qle_bool _ _ = true |- _ => apply Qle_bool_iff in H
         end.

(** * The rest of [services/api.js] *)

(** The string conversion of a value where the source builds a string from
    it ([new Error(v).message], a template literal): the identity on
    strings; [ToString] is the conversion of the host for the other
    values. *)
Definition text_of (ToString : value -> string) (v : value) : string :=
  match v with
  | JStr s => s
  | _ => ToString v
  end.

(** An integer in decimal, as a template literal prints it. *)
Definition decimal (z : Z) : string := NilZero.string_of_int (Z.to_int z).

(** ** Response interceptor *)

(** The response of a failed exchange: the HTTP status, an integer, and the
    parsed body. *)
Record axios_response := {
  response_status : Z;
  response_data : value
}.

(** What axios hands to the error handler of the interceptor. *)
Record axios_error := {
  error_request : bool;                     (* [error.request] is set *)
  error_response : option axios_response;   (* [error.response] *)
  error_code : value;                       (* [error.code] *)
  error_message : string                    (* [error.message] *)
}.

Definition unreachable_message : string :=
  "Cannot reach backend server. Ensure it is running and the API base URL is correct.".

Definition cors_message : string :=
  "CORS error: Backend did not allow this origin.".

(** The error handler always throws [new Error(m)]; this is [m]. *)
Definition response_rejected (error : axios_error) : value :=
  let network_error :=
    match error_response error with
    | None =>
        error_request error
        && (is_string (error_code error) "ERR_NETWORK"
            || (negb (error_message error =? "")
                && includes (error_message error) "Network Error"))
    | Some _ => false
    end in
  if network_error then JStr unreachable_message
  else
    match error_response error with
    | Some r =>
        if (response_status r =? 0)%Z then JStr cors_message
        else
          opt_prop (response_data r) "message"
          ||| opt_prop (response_data r) "error"
          ||| JStr ("Server error (" ++ decimal (response_status r) ++ ")")
    | None =>
        JStr (if error_message error =? "" then "An unexpected error occurred"
              else error_message error)
    end.

(** One exchange as axios sees it before the interceptor. *)
Inductive exchange :=
| Responded (response : value)
| Errored (error : axios_error).

(** The server behind the interceptor: responses pass, errors are
    replaced by the [Error] the handler throws. *)
Definition intercepted (ToString : value -> string) (raw : nat -> exchange)
  : script :=
  fun k =>
    match raw k with
    | Responded response => Fulfilled response
    | Errored error =>
        Failed (Error (text_of ToString (response_rejected error)))
    end.

(** The two failures that are about connectivity: no response and a
    network error code or message, or a response with status 0. *)
Definition connectivity_failure (error : axios_error) : bool :=
  match error_response error with
  | None =>
      error_request error
      && (is_string (error_code error) "ERR_NETWORK"
          || (negb (error_message error =? "")
              && includes (error_message error) "Network Error"))
  | Some r => (response_status r =? 0)%Z
  end.

(** ** [getTimeSlots] and [validateFile] *)

Definition slot (start_ end_ label : string) : value :=
  JObj [("start", JStr start_); ("end", JStr end_); ("label", JStr label)].

Definition default_time_slots : value :=
  JArr [slot "09:00" "10:00" "9:00 AM";
        slot "10:00" "11:00" "10:00 AM";
        slot "11:00" "12:00" "11:00 AM";
        slot "12:00" "13:00" "12:00 PM";
        slot "14:00" "15:00" "2:00 PM";
        slot "15:00" "16:00" "3:00 PM";
        slot "16:00" "17:00" "4:00 PM"].

Definition getTimeSlots (net : script) : M value :=
  try_catch
    (response <-
       makeRequestWithRetry (apiClient_get net "/timetable/timeslots")
         default_retries ;;
     if nullish response then throw (cannot_read response "data")
     else ret (prop response "data"))
    (fun error => ret default_time_slots).

Definition validateFile (net : script) (fileId : value) : M value :=
  try_catch
    (response <-
       makeRequestWithRetry
         (apiClient_post net "/timetable/validate" (JObj [("fileId", fileId)]))
         default_retries ;;
     if nullish response then throw (cannot_read response "data")
     else ret (prop response "data"))
    (fun error =>
       throw (Error ("File validation failed: " ++ message error))).

(** ** [generateTimetable] *)

(** [Number(process.env.REACT_APP_DE_...)] for the four settings; NaN when
    the variable is not set. *)
Record optimizer_env := {
  DE_POP_SIZE : Num.number;
  DE_MAX_GENS : Num.number;
  DE_F : Num.number;
  DE_CR : Num.number
}.

Definition default_config (env : optimizer_env) : list (string * value) :=
  [("population_size", JNum (DE_POP_SIZE env) ||| JInt 25);
   ("max_generations", JNum (DE_MAX_GENS env) ||| JInt 10);
   ("F", JNum (DE_F env) ||| JNum (Num.Fin (4 # 10)));
   ("CR", JNum (DE_CR env) ||| JNum (Num.Fin (9 # 10)))].

(** [{ ...a, ...b }] on the properties of [a] and [b]. *)
Definition merge_props (a b : list (string * value)) : list (string * value) :=
  fold_left (fun acc kv => assign acc (fst kv) (snd kv)) b a.

(** [typeof v === 'object'] *)
Definition typeof_object (v : value) : bool :=
  match v with
  | JNull | JArr _ | JObj _ => true
  | _ => false
  end.

(** The [config] of the start request, after the caller's overrides. *)
Definition generation_config (env : optimizer_env) (options : value)
  : list (string * value) :=
  if truthy options && typeof_object options
  then merge_props (default_config env) (spread options)
  else default_config env.

Definition generation_body (env : optimizer_env) (uploadId options : value)
  : value :=
  JObj [("upload_id", uploadId); ("config", JObj (generation_config env options))].

(** [v !== 202] is false *)
Definition is_202 (v : value) : bool :=
  match v with
  | JNum (Num.Fin q) => Qeq_bool q (inject_Z 202)
  | _ => false
  end.

(** [await pollForCompletion(...)]: a rejection is thrown as the [Error]
    it carries. *)
Definition await_poll (ToString : value -> string) (poll : M (settled * Z))
  : M value :=
  settled_at <- poll ;;
  match fst settled_at with
  | Resolved result0 => ret result0
  | Rejected reason => throw (Error (text_of ToString reason))
  end.

Definition generateTimetable (ToString : value -> string)
    (env : optimizer_env) (net : script) (uploadId : value)
    (progressCallback : bool) (options : value) : M value :=
  try_catch
    (let body := generation_body env uploadId options in
     startResponse <-
       makeRequestWithRetry (apiClient_post net "/generate-timetable" body)
         default_retries ;;
     if nullish startResponse then throw (cannot_read startResponse "status")
     else if negb (is_202 (prop startResponse "status")) then
       throw (Error "Failed to start timetable generation")
     else
       await_poll ToString
         (pollForCompletion net (text_of ToString uploadId) progressCallback))
    (fun error =>
       (* [error?.response?.data?.error] is undefined on a plain [Error] *)
       let msg :=
         if message error =? "" then "Unknown error" else message error in
       throw (Error ("Timetable generation failed: " ++ msg))).

(** ** More on traces *)

(** The names of the files saved, in order. *)
Fixpoint downloads (tr : list event) : list string :=
  match tr with
  | [] => []
  | Download filename :: rest => filename :: downloads rest
  | _ :: rest => downloads rest
  end.

(** The trace holds requests and timer waits only. *)
Definition only_requests (tr : list event) : bool :=
  forallb (fun e => match e with Call | Wait _ => true | _ => false end) tr.

Definition cors_policy_message : string :=
  "CORS policy is blocking requests to the backend. Please check the server configuration.".

(** The reason with which the poller rejects when a status request has
    failed for good with [error]. *)
Definition request_failure_reason (error : exn) : value :=
  JStr (if includes (message error) "CORS" then cors_policy_message
        else message error).

(** A start answer with the given status, then the status bodies in turn. *)
Definition started_then (startStatus : Z) (bodies : list value) (last : value)
  : script :=
  fun k =>
    match k with
    | O => Fulfilled (JObj [("data", JObj []); ("status", JInt startStatus)])
    | S k' =>
        Fulfilled (JObj [("data", nth k' bodies last); ("status", JInt 200)])
    end.

(** A request function that fails every time with the same error. *)
Definition failing (e : exn) : script := fun _ => Failed e.

(** ** More on strings *)

(** Every character of the string passes the test. *)
Fixpoint all_chars (P : ascii -> bool) (s : string) : bool :=
  match s with
  | EmptyString => true
  | String a rest => P a && all_chars P rest
  end.

(** The character is none of c, b, n in either case: the first letters of
    the three markers of a temporary error. *)
Definition no_marker_letter (a : ascii) : bool :=
  negb (existsb (Ascii.eqb (lower_ascii a)) ["c"; "b"; "n"]%char).

(** An HTTP failure with the given status and body. *)
Definition http_error (status : Z) (data : value) : axios_error :=
  {| error_request := true;
     error_response :=
       Some {| response_status := status; response_data := data |};
     error_code := JStr "ERR_BAD_RESPONSE";
     error_message := "Request failed with status code " ++ decimal status |}.

(** No response at all. *)
Definition network_down : axios_error :=
  {| error_request := true;
     error_response := None;
     error_code := JStr "ERR_NETWORK";
     error_message := "Network Error" |}.

(** The error [uploadFile] throws in place of [err]. *)
Definition upload_failure (err : exn) : exn :=
  Error ("File upload failed: "
         ++ (if message err =? "" then "Upload failed" else message err)).

(** The object has the key. *)
Definition has_key (o : list (string * value)) (key : string) : bool :=
  existsb (fun kv => fst kv =? key) o.

(** No optimizer setting in the environment. *)
Definition no_env : optimizer_env :=
  {| DE_POP_SIZE := Num.NaN; DE_MAX_GENS := Num.NaN;
     DE_F := Num.NaN; DE_CR := Num.NaN |}.

(** * [components/TimetableGenerator.js] and [components/FileUpload.js] *)

(** ** [parseInt] *)

(** White space that [parseInt] skips, among the ASCII characters: tab,
    line feed, vertical tab, form feed, carriage return, space. *)
Definition is_white_space (c : ascii) : bool :=
  let n := nat_of_ascii c in
  ((9 <=? n)%nat && (n <=? 13)%nat) || (n =? 32)%nat.

Fixpoint skip_white_space (s : string) : string :=
  match s with
  | String c rest => if is_white_space c then skip_white_space rest else s
  | EmptyString => s
  end.

(** The value of a character as a digit, up to base 36. *)
Definition digit_value (c : ascii) : option Z :=
  let n := nat_of_ascii c in
  if (48 <=? n)%nat && (n <=? 57)%nat then Some (Z.of_nat (n - 48))
  else if (97 <=? n)%nat && (n <=? 122)%nat then Some (Z.of_nat (n - 87))
  else if (65 <=? n)%nat && (n <=? 90)%nat then Some (Z.of_nat (n - 55))
  else None.

(** The number written by the longest prefix of digits of the base; [acc]
    is the number read so far, [None] before the first digit. *)
Fixpoint leading_digits (radix : Z) (s : string) (acc : option Z) : option Z :=
  match s with
  | String c rest =>
      match digit_value c with
      | Some d =>
          if (d <? radix)%Z then
            leading_digits radix rest
              (Some (radix * match acc with Some n => n | None => 0 end + d)%Z)
          else acc
      | None => acc
      end
  | EmptyString => acc
  end.

Definition strip_hex_prefix (s : string) : option string :=
  match s with
  | String "0" (String "x" rest) | String "0" (String "X" rest) => Some rest
  | _ => None
  end.

(** [parseInt(s, radix)] for a string [s]; [radix] is [0] when the
    argument is left out. *)
Definition parseInt (s : string) (radix : Z) : Num.number :=
  let trimmed := skip_white_space s in
  let '(sign, body) :=
    match trimmed with
    | String "-" rest => ((-1)%Z, rest)
    | String "+" rest => (1%Z, rest)
    | _ => (1%Z, trimmed)
    end in
  if negb (radix =? 0)%Z && ((radix <? 2)%Z || (36 <? radix)%Z) then Num.NaN
  else
    let '(base, digits) :=
      if (radix =? 0)%Z || (radix =? 16)%Z then
        match strip_hex_prefix body with
        | Some rest => (16%Z, rest)
        | None => ((if (radix =? 0)%Z then 10 else radix)%Z, body)
        end
      else (radix, body) in
    match leading_digits base digits None with
    | Some n => Num.of_Z (sign * n)
    | None => Num.NaN
    end.

(** [Number.isFinite(n) && n > 0] *)
Definition finite_positive (n : Num.number) : bool :=
  match n with
  | Num.Fin q => negb (Qle_bool q 0)
  | _ => false
  end.

(** ** The handlers of [TimetableGenerator]

    The component with the generations selector is modelled.  A handler
    reads the state of the render it was created in and queues updates;
    here it takes that state and returns the state with the updates
    applied in order.  [showInstructions] plays no part and is left out. *)

(** The events a run added to the trace. *)
Definition events_since (w w' : world) : list event :=
  skipn (List.length (trace w)) (trace w').

(** The observer applied to its calls in order. *)
Definition replay (calls : list value) (u : ui) : ui :=
  fold_left (fun u progressData => progressCallback progressData u) calls u.

(** [array.length === 0], and likewise on a string; other values have no
    length that is 0. *)
Definition length_is_zero (v : value) : bool :=
  match v with
  | JArr [] => true
  | JStr EmptyString => true
  | _ => false
  end.

Module Generator.

(** The state of the component. *)
Record state := {
  selectedFile : value;
  uploadId : value;
  isProcessing : bool;
  view : ui;                    (* [progress] and [progressText] *)
  generatedData : value;
  error : string;
  generations : string;
  awaitingGenerations : bool
}.

Definition initial : state :=
  {| selectedFile := JNull;
     uploadId := JNull;
     isProcessing := false;
     view := {| progress := Num.of_Z 0; progressText := JStr "" |};
     generatedData := JArr [];
     error := "";
     generations := "";
     awaitingGenerations := false |}.

Definition setSelectedFile (x : value) (s : state) : state :=
  {| selectedFile := x; uploadId := uploadId s;
     isProcessing := isProcessing s; view := view s;
     generatedData := generatedData s; error := error s;
     generations := generations s;
     awaitingGenerations := awaitingGenerations s |}.

Definition setUploadId (x : value) (s : state) : state :=
  {| selectedFile := selectedFile s; uploadId := x;
     isProcessing := isProcessing s; view := view s;
     generatedData := generatedData s; error := error s;
     generations := generations s;
     awaitingGenerations := awaitingGenerations s |}.

Definition setIsProcessing (x : bool) (s : state) : state :=
  {| selectedFile := selectedFile s; uploadId := uploadId s;
     isProcessing := x; view := view s;
     generatedData := generatedData s; error := error s;
     generations := generations s;
     awaitingGenerations := awaitingGenerations s |}.

Definition setView (x : ui) (s : state) : state :=
  {| selectedFile := selectedFile s; uploadId := uploadId s;
     isProcessing := isProcessing s; view := x;
     generatedData := generatedData s; error := error s;
     generations := generations s;
     awaitingGenerations := awaitingGenerations s |}.

Definition setGeneratedData (x : value) (s : state) : state :=
  {| selectedFile := selectedFile s; uploadId := uploadId s;
     isProcessing := isProcessing s; view := view s;
     generatedData := x; error := error s;
     generations := generations s;
     awaitingGenerations := awaitingGenerations s |}.

Definition setError (x : string) (s : state) : state :=
  {| selectedFile := selectedFile s; uploadId := uploadId s;
     isProcessing := isProcessing s; view := view s;
     generatedData := generatedData s; error := x;
     generations := generations s;
     awaitingGenerations := awaitingGenerations s |}.

Definition setGenerations (x : string) (s : state) : state :=
  {| selectedFile := selectedFile s; uploadId := uploadId s;
     isProcessing := isProcessing s; view := view s;
     generatedData := generatedData s; error := error s;
     generations := x;
     awaitingGenerations := awaitingGenerations s |}.

Definition setAwaitingGenerations (x : bool) (s : state) : state :=
  {| selectedFile := selectedFile s; uploadId := uploadId s;
     isProcessing := isProcessing s; view := view s;
     generatedData := generatedData s; error := error s;
     generations := generations s;
     awaitingGenerations := x |}.

(** [setProgress(p); setProgressText(t)] *)
Definition show (p : Z) (t : string) (s : state) : state :=
  setView (setProgressText (JStr t) (setProgress (Num.of_Z p) (view s))) s.

Definition handleFileSelect (file : value) (s : state) : state :=
  setAwaitingGenerations true
    (setGenerations ""
       (setUploadId JNull
          (setGeneratedData (JArr [])
             (setError "" (setSelectedFile file s))))).

Definition handleFileReset (s : state) : state :=
  setAwaitingGenerations false
    (setGenerations ""
       (setError ""
          (setGeneratedData (JArr [])
             (show 0 ""
                (setIsProcessing false
                   (setUploadId JNull (setSelectedFile JNull s))))))).

(** The timetables [startGeneration] takes out of what [generateTimetable]
    returned. *)
Definition extract_timetables (timetableData : value) : value :=
  let timetables :=
    if truthy timetableData then
      prop timetableData "timetables"
      ||| opt_prop (prop timetableData "data") "timetables"
      ||| prop timetableData "results"
      ||| (if is_array timetableData then timetableData else JArr [])
    else JArr [] in
  if negb (is_array timetables)
  then (if truthy timetables then JArr [timetables] else JArr [])
  else timetables.

(** The options [startGeneration] builds from the choice of generations. *)
Definition generation_options (generations : string) : value :=
  let gens := parseInt generations 10 in
  if finite_positive gens then JObj [("max_generations", JNum gens)]
  else JObj [].

(** The callback of the timer that [startGeneration] sets for 1500 ms
    after a success. *)
Definition reset_after_completion (s : state) : state :=
  show 0 "" (setIsProcessing false s).

(** What a handler leaves: the state when it returns and whether the
    reset timer is pending. *)
Definition left_state : Type := (state * bool)%type.

(** The state once a pending timer has fired. *)
Definition settle (l : left_state) : state :=
  if snd l then reset_after_completion (fst l) else fst l.

(** [startGeneration(currentUploadId)], run in state [s]; [generations] is
    the choice captured by the handler.  The result is [Throw] when
    [generateTimetable] throws, with the state reached by then. *)
Definition startGeneration (ToString : value -> string)
    (env : optimizer_env) (net : script) (generations : string)
    (currentUploadId : value) (s : state) (w : world)
  : result unit * left_state * world :=
  let s1 := show 30 "Starting timetable generation..." s in
  let options := generation_options generations in
  let run := generateTimetable ToString env net currentUploadId true options w in
  let w' := snd run in
  let s2 := setView (replay (observations (events_since w w')) (view s1)) s1 in
  match fst run with
  | Ok timetableData =>
      let timetables := extract_timetables timetableData in
      (Ok tt, (setGeneratedData timetables (show 100 "Complete!" s2), true), w')
  | Throw err => (Throw err, (s2, false), w')
  | OutOfFuel => (OutOfFuel, (s2, false), w')
  end.

(** The [catch] blocks of [handleGenerate]. *)
Definition generation_failed (err : exn) (s : state) : state :=
  let errorMessage :=
    if message err =? "" then "An error occurred while generating the timetable"
    else message err in
  show 0 "" (setIsProcessing false (setError errorMessage s)).

(** The multipart body [uploadFile] builds from the file. *)
Definition form_data (file : value) : value :=
  JObj [("file", file); ("filename", prop file "name")].

Definition handleGenerate (ToString JSON_stringify : value -> string)
    (env : optimizer_env) (net : script) (s : state) (w : world)
  : result left_state * world :=
  if negb (truthy (selectedFile s)) || isProcessing s then (Ok (s, false), w)
  else if negb (finite_positive (parseInt (generations s) 10)) then
    (Ok (setError "Please select the number of generations." s, false), w)
  else if negb (truthy (uploadId s)) then
    let s1 :=
      show 10 "Uploading file..."
        (show 5 "Preparing upload..."
           (setGeneratedData (JArr [])
              (setError "" (setIsProcessing true s)))) in
    match handleGenerate_upload JSON_stringify net
            (form_data (selectedFile s)) w with
    | (Ok currentUploadId, w1) =>
        let s2 := setAwaitingGenerations false (setUploadId currentUploadId s1) in
        match startGeneration ToString env net (generations s)
                currentUploadId s2 w1 with
        | (Ok _, l, w2) => (Ok l, w2)
        | (Throw err, l, w2) => (Ok (generation_failed err (fst l), false), w2)
        | (OutOfFuel, _, w2) => (OutOfFuel, w2)
        end
    | (Throw err, w1) => (Ok (generation_failed err s1, false), w1)
    | (OutOfFuel, w1) => (OutOfFuel, w1)
    end
  else
    let s1 := setAwaitingGenerations false (setIsProcessing true s) in
    match startGeneration ToString env net (generations s) (uploadId s) s1 w
    with
    | (Ok _, l, w2) => (Ok l, w2)
    | (Throw err, l, w2) => (Ok (generation_failed err (fst l), false), w2)
    | (OutOfFuel, _, w2) => (OutOfFuel, w2)
    end.

(** The upload id reaches [downloadTimetable] as text; the request body
    is not among the things a run shows. *)
Definition handleDownload (ToString : value -> string) (net : script)
    (timestamp : string) (format : string) (s : state) (w : world)
  : result state * world :=
  if negb (truthy (uploadId s)) then
    (Ok (setError
           "No timetable data available for download - missing upload ID" s),
     w)
  else if length_is_zero (generatedData s) then
    (Ok (setError
           "No timetable data available for download - no generated data" s),
     w)
  else
    match downloadTimetable net timestamp (text_of ToString (uploadId s))
            format w with
    | (Ok _, w') => (Ok s, w')
    | (Throw err, w') =>
        (Ok (setError
               (if message err =? "" then "An error occurred while downloading"
                else message err) s), w')
    | (OutOfFuel, w') => (OutOfFuel, w')
    end.

End Generator.

(** ** [FileUpload.validateFile] *)

(** [s.split(sep)] for a separator of one character: never empty. *)
Fixpoint split (sep : ascii) (s : string) : list string :=
  match s with
  | EmptyString => [EmptyString]
  | String c rest =>
      if (c =? sep)%char then EmptyString :: split sep rest
      else
        match split sep rest with
        | first :: others => String c first :: others
        | [] => [String c EmptyString]
        end
  end.

(** [array.pop()] of an array of strings that is not empty. *)
Definition pop (l : list string) : string := last l EmptyString.

(** [a > b] on numbers; false when either is NaN. *)
Definition greater (a b : Num.number) : bool :=
  negb (Num.is_NaN a || Num.is_NaN b) && negb (Num.leb a b).

(** [array.includes(s)] on strings *)
Definition includes_string (l : list string) (s : string) : bool :=
  existsb (String.eqb s) l.

Module FileUpload.

Record file := {
  name : string;
  size : Z       (* bytes *)
}.

(** The two settings read from the environment; [None] when not set. *)
Record settings := {
  ALLOWED_FILE_TYPES : option string;
  MAX_FILE_SIZE : option string
}.

Definition allowedTypes (env : settings) : list string :=
  match ALLOWED_FILE_TYPES env with
  | Some types => split "," types
  | None => [".xlsx"; ".xls"]
  end.

(** [parseInt(process.env.REACT_APP_MAX_FILE_SIZE) || 10485760] *)
Definition maxSize (env : settings) : Num.number :=
  let parsed :=
    parseInt (match MAX_FILE_SIZE env with
              | Some text => text
              | None => "undefined"
              end) 0 in
  if truthy (JNum parsed) then parsed else Num.of_Z 10485760.

Definition fileExtension (f : file) : string :=
  "." ++ toLowerCase (pop (split "." (name f))).

(** The file is taken, or refused with an alert. *)
Inductive verdict :=
| Accepted
| Refused (alert : string).

Definition validateFile (env : settings) (f : file) : verdict :=
  if negb (includes_string (allowedTypes env) (fileExtension f)) then
    Refused "Please select a valid Excel file (.xlsx or .xls)"
  else if greater (Num.of_Z (size f)) (maxSize env) then
    Refused "File size must be less than 10MB"
  else Accepted.

Definition defaults : settings :=
  {| ALLOWED_FILE_TYPES := None; MAX_FILE_SIZE := None |}.

End FileUpload.

(** A selected spreadsheet. *)
Definition sample_file : value :=
  JObj [("name", JStr "courses.xlsx"); ("size", JInt 2048)].

(** A server that accepts the upload, starts the job and reports it
    completed at the first poll. *)
Definition cooperative : script :=
  fun k =>
    match k with
    | O => Fulfilled (JObj [("data", JObj [("upload_id", JStr "abc")]);
                            ("status", JInt 200)])
    | S O => Fulfilled (JObj [("data", JObj []); ("status", JInt 202)])
    | _ =>
        Fulfilled
          (JObj [("data",
                  JObj [("status", JStr "completed");
                        ("result",
                         JObj [("timetables",
                                JArr [JObj [("title", JStr "A")]])])]);
                 ("status", JInt 200)])
    end.

(** A component with a file selected and five generations chosen. *)
Definition ready : Generator.state :=
  Generator.setGenerations "5"
    (Generator.handleFileSelect sample_file Generator.initial).

(** The same after a successful run. *)
Definition generated : Generator.state :=
  Generator.setGeneratedData (JArr [JObj [("title", JStr "A")]])
    (Generator.setUploadId (JStr "abc") ready).

(** The character is not a dot. *)
Definition not_dot (c : ascii) : bool := negb (c =? ".")%char.

(** A completed job whose timetables come as an object keyed by name, with
    parsed rows beside them. *)
Definition keyed_timetables : value :=
  JObj [("status", JStr "completed");
        ("result",
         JObj [("timetables", JObj [("Year 1", JObj [("title", JStr "A")])]);
               ("parsed_timetables", JArr [JObj [("rows", JArr [])]])])].

(** * Properties *)

(** ** Retry wrapper *)

Lemma retry_trace_invocations (i : Z) (m : nat) :
  invocations (retry_trace i m) = S m.
Proof.
  revert i; induction m as [|m IH]; intro i; simpl; [reflexivity|].
  now rewrite IH.
Qed.

Lemma retry_trace_waits (i : Z) (m : nat) :
  waits (retry_trace i m)
  = map (fun k => (1000 * (i + Z.of_nat k))%Z) (seq 1 m).
Proof.
  revert i; induction m as [|m IH]; intro i; [reflexivity|].
  cbn [retry_trace waits seq map]. rewrite IH. f_equal.
  rewrite <- (seq_shift m 1), map_map. apply map_ext. intro k. lia.
Qed.

Lemma after_calls_emit (w : world) (n : nat) (tr : list event) (e : event) :
  {| calls := calls (after_calls w n tr);
     trace := trace (after_calls w n tr) ++ [e] |}
  = after_calls w n (tr ++ [e]).
Proof. unfold after_calls; simpl. now rewrite app_assoc. Qed.

(** The loop from index [i]: [m] temporary failures, then the outcome of
    the next invocation decides. *)
Lemma retry_loop_run (requestFn : script) (retries : Z) :
  forall (m fuel : nat) (i : Z) (w : world),
    (i + Z.of_nat m < retries)%Z ->
    (Z.to_nat (retries - i) <= fuel)%nat ->
    transient_failures requestFn (calls w) m ->
    retry_loop (invoke requestFn) retries fuel i w
    = match requestFn (calls w + m)%nat with
      | Fulfilled v => (Ok v, after_calls w (S m) (retry_trace i m))
      | Failed e =>
          if (i + Z.of_nat m =? retries - 1)%Z || negb (transient e)
          then (Throw e, after_calls w (S m) (retry_trace i m))
          else
            bind (sleep (1000 * (i + Z.of_nat m + 1)))
              (fun _ => retry_loop (invoke requestFn) retries
                          (fuel - S m) (i + Z.of_nat m + 1)%Z)
              (after_calls w (S m) (retry_trace i m))
      end.
Proof.
  induction m as [|m IH]; intros fuel i w Hi Hfuel Hpre.
  - destruct fuel as [|fuel]; [lia|].
    cbn [retry_loop]. replace (i <? retries)%Z with true by lia.
    unfold try_catch, invoke. rewrite Nat.add_0_r, Z.add_0_r.
    replace (after_calls w 1 (retry_trace i 0))
      with {| calls := S (calls w); trace := trace w ++ [Call] |}
      by (unfold after_calls; simpl; f_equal; lia).
    destruct (requestFn (calls w)) as [v|e]; [reflexivity|].
    destruct (i =? retries - 1)%Z; [reflexivity|].
    destruct (transient e); simpl; [|reflexivity].
    now rewrite Nat.sub_0_r.
  - destruct fuel as [|fuel]; [lia|].
    cbn [retry_loop]. replace (i <? retries)%Z with true by lia.
    destruct (Hpre 0%nat ltac:(lia)) as (e & He & Ht).
    rewrite Nat.add_0_r in He.
    unfold try_catch at 1. unfold invoke at 1. rewrite He.
    replace (i =? retries - 1)%Z with false by lia. rewrite Ht.
    unfold bind at 1, sleep at 1, emit at 1. cbn [calls trace].
    rewrite IH.
    + cbn [calls]. replace (S (calls w) + m)%nat with (calls w + S m)%nat by lia.
      replace (i + 1 + Z.of_nat m)%Z with (i + Z.of_nat (S m))%Z by lia.
      assert (Hw : after_calls
                {| calls := S (calls w);
                   trace := (trace w ++ [Call]) ++ [Wait (1000 * (i + 1))] |}
                (S m) (retry_trace (i + 1) m)
              = after_calls w (S (S m)) (retry_trace i (S m))).
      { unfold after_calls; cbn [calls trace retry_trace]. f_equal; [lia|].
        now rewrite <- !app_assoc. }
      rewrite Hw. reflexivity.
    + lia.
    + lia.
    + intros k Hk. cbn [calls].
      destruct (Hpre (S k) ltac:(lia)) as (e' & He' & Ht').
      exists e'. split; [|exact Ht'].
      now replace (S (calls w) + k)%nat with (calls w + S k)%nat by lia.
Qed.

(** The loop always ends; it invokes the request function at most once
    per remaining index, at least once if an index remains, and calls no
    observer. *)
Lemma retry_loop_total (requestFn : script) (retries : Z) :
  forall (fuel : nat) (i : Z) (w : world),
    (Z.to_nat (retries - i) <= fuel)%nat ->
    exists r c tr,
      retry_loop (invoke requestFn) retries fuel i w = (r, after_calls w c tr)
      /\ r <> OutOfFuel
      /\ (c <= Z.to_nat (retries - i))%nat
      /\ ((0 < retries - i)%Z -> (0 < c)%nat)
      /\ observations tr = [].
Proof.
  assert (Hid : forall w, w = after_calls w 0 []).
  { intros [c t]. unfold after_calls; simpl.
    now rewrite Nat.add_0_r, app_nil_r. }
  induction fuel as [|fuel IH]; intros i w Hfuel.
  - cbn [retry_loop]. replace (i <? retries)%Z with false by lia.
    exists (Ok JUndefined), 0%nat, []. unfold ret. rewrite <- Hid.
    repeat split; try discriminate; lia.
  - cbn [retry_loop]. destruct (i <? retries)%Z eqn:Hlt.
    2:{ exists (Ok JUndefined), 0%nat, []. unfold ret. rewrite <- Hid.
        apply Z.ltb_ge in Hlt. repeat split; try discriminate; lia. }
    apply Z.ltb_lt in Hlt.
    unfold try_catch at 1, invoke at 1.
    assert (Hw1 : {| calls := S (calls w); trace := trace w ++ [Call] |}
                  = after_calls w 1 [Call]).
    { unfold after_calls. f_equal. lia. }
    rewrite Hw1.
    destruct (requestFn (calls w)) as [v|e].
    + exists (Ok v), 1%nat, [Call].
      repeat split; try discriminate; lia.
    + destruct (i =? retries - 1)%Z.
      { exists (Throw e), 1%nat, [Call].
        repeat split; try discriminate; lia. }
      destruct (transient e).
      2:{ exists (Throw e), 1%nat, [Call].
          repeat split; try discriminate; lia. }
      unfold bind at 1, sleep at 1, emit at 1.
      rewrite after_calls_emit.
      destruct (IH (i + 1)%Z
                  (after_calls w 1 ([Call] ++ [Wait (1000 * (i + 1))]))
                  ltac:(lia))
        as (r & c & tr & Hrun & Hr & Hc & _ & Hobs).
      rewrite Hrun.
      exists r, (S c), ([Call] ++ [Wait (1000 * (i + 1))] ++ tr)%list.
      repeat split; try assumption; try lia.
      unfold after_calls; cbn [calls trace]. f_equal. f_equal; [lia|].
      now rewrite <- !app_assoc.
Qed.

(** C2. With a positive budget (3 by default), as long as the invocations
    fail with a temporary connectivity error (a message containing "cors",
    "backend" or "network" in any case) the wrapper invokes the request
    function again after 1000 ms, 2000 ms, ...; after [m] such failures the
    next invocation settles the call: a success is returned, and a failure
    is rethrown unchanged when it is not temporary or when the budget is
    used up.  The function was then invoked exactly [m + 1] times, so once
    when the first error is not temporary and [retries] times when the
    budget is used up. *)
Theorem makeRequestWithRetry_attempts
    (requestFn : script) (retries : Z) (m : nat) (w : world) :
  (Z.of_nat m < retries)%Z ->
  transient_failures requestFn (calls w) m ->
  (forall v,
      requestFn (calls w + m)%nat = Fulfilled v ->
      makeRequestWithRetry (invoke requestFn) retries w
      = (Ok v, after_calls w (S m) (retry_trace 0 m)))
  /\ (forall e,
      requestFn (calls w + m)%nat = Failed e ->
      transient e = false \/ Z.of_nat (S m) = retries ->
      makeRequestWithRetry (invoke requestFn) retries w
      = (Throw e, after_calls w (S m) (retry_trace 0 m)))
  /\ invocations (retry_trace 0 m) = S m
  /\ waits (retry_trace 0 m)
     = map (fun k => (1000 * Z.of_nat k)%Z) (seq 1 m).
Proof.
  intros Hm Hpre.
  pose proof (retry_loop_run requestFn retries m (Z.to_nat retries) 0 w
                ltac:(lia) ltac:(rewrite Z.sub_0_r; lia) Hpre) as Hrun.
  unfold makeRequestWithRetry.
  repeat split.
  - intros v Hv. rewrite Hrun, Hv. reflexivity.
  - intros e He Hlast. rewrite Hrun, He.
    destruct Hlast as [Ht|Hlast].
    + rewrite Ht. now rewrite orb_true_r.
    + replace (0 + Z.of_nat m =? retries - 1)%Z with true by lia.
      reflexivity.
  - apply retry_trace_invocations.
  - rewrite retry_trace_waits. apply map_ext. intro k. f_equal.
Qed.

Lemma makeRequestWithRetry_attempts_witness :
  makeRequestWithRetry (invoke flaky) default_retries start
  = (Ok (JStr "ok"),
     {| calls := 3; trace := [Call; Wait 1000; Call; Wait 2000; Call] |}).
Proof.
  destruct (makeRequestWithRetry_attempts flaky default_retries 2 start)
    as [Hok _].
  - reflexivity.
  - intros k Hk. destruct k as [|[|k]].
    + exists (Error "Network Error"). split; reflexivity.
    + exists (Error "CORS error: Backend did not allow this origin.").
      split; reflexivity.
    + lia.
  - apply (Hok (JStr "ok")). reflexivity.
Defined.

(** C10. With a budget of zero or less the wrapper resolves with
    [undefined] and leaves the world as it was, whatever the request
    function is: it was not invoked.  With a positive budget the request
    function is invoked at least once. *)
Theorem makeRequestWithRetry_no_budget (retries : Z) (w : world) :
  (forall requestFn : M value,
      (retries <= 0)%Z ->
      makeRequestWithRetry requestFn retries w = (Ok JUndefined, w))
  /\ (forall requestFn : script,
      (0 < retries)%Z ->
      (calls w < calls (snd (makeRequestWithRetry (invoke requestFn)
                               retries w)))%nat).
Proof.
  split.
  - intros requestFn Hle. unfold makeRequestWithRetry.
    destruct (Z.to_nat retries); cbn [retry_loop];
      replace (0 <? retries)%Z with false by lia; reflexivity.
  - intros requestFn Hpos. unfold makeRequestWithRetry.
    destruct (retry_loop_total requestFn retries (Z.to_nat retries) 0 w
                ltac:(rewrite Z.sub_0_r; lia))
      as (r & c & tr & Hrun & _ & _ & Hc & _).
    rewrite Hrun. cbn [snd after_calls calls].
    specialize (Hc ltac:(lia)). lia.
Qed.

Lemma makeRequestWithRetry_no_budget_witness :
  makeRequestWithRetry (invoke flaky) 0 start = (Ok JUndefined, start)
  /\ (calls start
      < calls (snd (makeRequestWithRetry (invoke flaky) default_retries
                      start)))%nat.
Proof.
  split.
  - apply (proj1 (makeRequestWithRetry_no_budget 0 start)). lia.
  - apply (proj2 (makeRequestWithRetry_no_budget default_retries start)).
    reflexivity.
Defined.

(** ** Status poller: how one poll runs *)

Lemma after_calls_0 (w : world) : w = after_calls w 0 [].
Proof.
  destruct w as [c t]. unfold after_calls; simpl.
  now rewrite Nat.add_0_r, app_nil_r.
Qed.

Lemma after_calls_comp (w : world) (c c' : nat) (tr tr' : list event) :
  after_calls (after_calls w c tr) c' tr' = after_calls w (c + c') (tr ++ tr').
Proof.
  unfold after_calls; cbn [calls trace]. f_equal; [lia|].
  now rewrite app_assoc.
Qed.

Lemma notify_run (progressCallback : bool) (progressData : value) (w : world) :
  notify progressCallback progressData w
  = (Ok tt,
     after_calls w 0 (if progressCallback then [Observe progressData] else [])).
Proof.
  destruct progressCallback; unfold notify, emit, ret.
  - unfold after_calls. now rewrite Nat.add_0_r.
  - now rewrite <- after_calls_0.
Qed.

Lemma observations_app (tr tr' : list event) :
  observations (tr ++ tr') = (observations tr ++ observations tr')%list.
Proof.
  induction tr as [|[| |pd|] tr IH]; simpl; try assumption.
  - reflexivity.
  - now rewrite IH.
Qed.

Lemma observations_notify (progressCallback : bool) (progressData : value) :
  observations (if progressCallback then [Observe progressData] else [])
  = if progressCallback then [progressData] else [].
Proof. now destruct progressCallback. Qed.

Lemma normalize_progress_numeric (statusData : value) :
  exists p, n_progress (normalize statusData) = JNum p.
Proof.
  unfold normalize, infer_status.
  assert (H : exists p, n_progress (read_fields statusData) = JNum p).
  { unfold read_fields; cbn [n_progress].
    destruct (prop statusData "progress"); cbn [is_number];
      eauto; now exists (Num.of_Z 0). }
  repeat match goal with
         | |- context [if ?b then _ else _] => destruct b
         end; cbn [set_status n_progress]; exact H.
Qed.

Lemma poll_call_numeric (statusResponse : value) :
  numeric_call (poll_call statusResponse).
Proof.
  unfold poll_call, numeric_call, percentage_of, progress_data.
  destruct (normalize_progress_numeric (status_data statusResponse)) as [p Hp].
  rewrite Hp. split; [reflexivity|]. now exists p.
Qed.

Lemma completed_call_numeric : numeric_call completed_call.
Proof. split; [reflexivity|]. now exists (Num.of_Z 100). Qed.

(** The merge either succeeds or raises the TypeError of a [map] that is
    missing; it has no other effect. *)
Lemma merge_result_run (result0 : value) (w : world) :
  (exists merged, merge_result result0 w = (Ok merged, w))
  \/ merge_result result0 w
     = (Throw (Error "result.timetables.map is not a function"), w).
Proof.
  unfold merge_result.
  destruct (negb (truthy (prop result0 "timetables"))
            && truthy (prop result0 "timetables_raw"));
    match goal with
    | |- context [if ?b then _ else _] => destruct b
    end;
    try (left; eexists; reflexivity);
    match goal with
    | |- context [match ?v with JArr _ => _ | _ => _ end] => destruct v
    end;
    try (left; eexists; reflexivity); right; reflexivity.
Qed.

(** What a poll does once the status request has given [statusResponse]. *)
Lemma poll_once_response (net : script) (uploadId : string)
    (progressCallback : bool) (attempts : Z) (w w1 : world)
    (statusResponse : value) :
  makeRequestWithRetry
    (apiClient_get net ("/get-timetable-status/" ++ uploadId))
    default_retries w = (Ok statusResponse, w1) ->
  let n := normalize (status_data statusResponse) in
  let w2 :=
    after_calls w1 0
      (if progressCallback then [Observe (poll_call statusResponse)] else []) in
  poll_once net uploadId progressCallback attempts w
  = if is_string (n_status n) "completed" then
      match (if truthy (n_result n) then merge_result (n_result n) w2
             else (Ok (n_result n), w2)) with
      | (Ok merged, _) =>
          (Ok (Done (Resolved merged)),
           after_calls w2 0
             (if progressCallback then [Observe completed_call] else []))
      | (Throw e, _) => (Ok (Done (Rejected (JStr (message e)))), w2)
      | (OutOfFuel, _) => (OutOfFuel, w2)
      end
    else if is_string (n_status n) "error" then
      (Ok (Done (Rejected (n_error n ||| JStr "Generation failed"))), w2)
    else if (maxAttempts <=? attempts)%Z then
      (Ok (Done (Rejected timeout_reason)), w2)
    else (Ok Again, w2).
Proof.
  intros Hreq n w2. unfold poll_once, try_catch.
  unfold bind at 1. rewrite Hreq.
  unfold bind at 1. rewrite notify_run.
  fold (poll_call statusResponse). fold n. fold w2.
  destruct (is_string (n_status n) "completed").
  - unfold bind at 1.
    destruct (truthy (n_result n)).
    + destruct (merge_result_run (n_result n) w2) as [[merged Hm]|Hm];
        rewrite Hm.
      * unfold bind at 1. rewrite notify_run. reflexivity.
      * reflexivity.
    + unfold ret at 1. unfold bind at 1. rewrite notify_run. reflexivity.
  - destruct (is_string (n_status n) "error"); [reflexivity|].
    destruct (maxAttempts <=? attempts)%Z; reflexivity.
Qed.

(** A poll never throws and never runs out of fuel: it settles the promise
    or asks for another poll, after one to three requests. *)
Lemma poll_once_total (net : script) (uploadId : string)
    (progressCallback : bool) (attempts : Z) (w : world) :
  exists s c tr,
    poll_once net uploadId progressCallback attempts w
    = (Ok s, after_calls w c tr)
    /\ (1 <= c <= 3)%nat
    /\ Forall numeric_call (observations tr)
    /\ (s = Again -> (attempts < maxAttempts)%Z)
    /\ (forall merged, s = Done (Resolved merged) -> progressCallback = true ->
        exists front, observations tr = (front ++ [completed_call])%list).
Proof.
  destruct (retry_loop_total net default_retries (Z.to_nat default_retries)
              0 w ltac:(reflexivity))
    as (r & c & tr & Hrun & Hr & Hc & Hpos & Hobs).
  specialize (Hpos ltac:(reflexivity)).
  assert (Hc3 : (1 <= c <= 3)%nat) by (cbn in Hc; lia).
  destruct r as [statusResponse|e|]; [| |congruence].
  - rewrite (poll_once_response net uploadId progressCallback attempts w _ _
               Hrun).
    set (n := normalize (status_data statusResponse)).
    set (first_call :=
           if progressCallback then [Observe (poll_call statusResponse)]
           else []).
    assert (Hfirst : Forall numeric_call (observations (tr ++ first_call))).
    { rewrite observations_app, Hobs. subst first_call.
      rewrite observations_notify. destruct progressCallback; constructor.
      - apply poll_call_numeric.
      - constructor. }
    destruct (is_string (n_status n) "completed").
    + assert (Hcase :
        (exists merged,
            (if truthy (n_result n)
             then merge_result (n_result n)
                    (after_calls (after_calls w c tr) 0 first_call)
             else (Ok (n_result n),
                   after_calls (after_calls w c tr) 0 first_call))
            = (Ok merged, after_calls (after_calls w c tr) 0 first_call))
        \/ (if truthy (n_result n)
            then merge_result (n_result n)
                   (after_calls (after_calls w c tr) 0 first_call)
            else (Ok (n_result n),
                  after_calls (after_calls w c tr) 0 first_call))
           = (Throw (Error "result.timetables.map is not a function"),
              after_calls (after_calls w c tr) 0 first_call)).
      { destruct (truthy (n_result n)).
        - apply merge_result_run.
        - left. eexists. reflexivity. }
      destruct Hcase as [[merged Hm]|Hm]; rewrite Hm.
      * exists (Done (Resolved merged)), c,
          ((tr ++ first_call)
              ++ (if progressCallback then [Observe completed_call] else []))%list.
        rewrite !after_calls_comp, !Nat.add_0_r, app_assoc.
        repeat split; try lia; try discriminate.
        -- rewrite observations_app. apply Forall_app. split.
           ++ exact Hfirst.
           ++ rewrite observations_notify. destruct progressCallback;
                constructor; [apply completed_call_numeric | constructor].
        -- intros _ _ Hcb. subst progressCallback.
           exists (observations (tr ++ first_call)).
           now rewrite observations_app.
      * exists (Done (Rejected (JStr "result.timetables.map is not a function"))),
          c, (tr ++ first_call)%list.
        rewrite !after_calls_comp, !Nat.add_0_r.
        repeat split; try lia; try discriminate; exact Hfirst.
    + destruct (is_string (n_status n) "error");
        [|destruct (maxAttempts <=? attempts)%Z eqn:Hmax];
        eexists; exists c, (tr ++ first_call)%list;
        rewrite !after_calls_comp, !Nat.add_0_r;
        repeat split; try lia; try discriminate; try exact Hfirst.
  - unfold poll_once, try_catch.
    unfold bind at 1.
    change (makeRequestWithRetry
              (apiClient_get net ("/get-timetable-status/" ++ uploadId))
              default_retries w)
      with (retry_loop (invoke net) default_retries
              (Z.to_nat default_retries) 0 w).
    rewrite Hrun.
    destruct (includes (message e) "CORS"); eexists; exists c, tr;
      (split; [reflexivity|]); repeat split; try lia; try discriminate;
      rewrite Hobs; constructor.
Qed.

Lemma request_fulfilled (net : script) (url : string) (w : world)
    (statusResponse : value) :
  net (calls w) = Fulfilled statusResponse ->
  makeRequestWithRetry (apiClient_get net url) default_retries w
  = (Ok statusResponse, after_calls w 1 [Call]).
Proof.
  intro Hnet. unfold makeRequestWithRetry, apiClient_get.
  rewrite (retry_loop_run net default_retries 0 _ 0 w);
    [ | reflexivity | reflexivity | intros k Hk; lia ].
  rewrite Nat.add_0_r, Hnet. reflexivity.
Qed.

Lemma invocations_app (tr tr' : list event) :
  invocations (tr ++ tr') = (invocations tr + invocations tr')%nat.
Proof.
  induction tr as [|[| |pd|] tr IH]; simpl; try assumption.
  - reflexivity.
  - now rewrite IH.
Qed.


(** ** Status poller: the loop *)

(** The loop ends within the attempts that remain, with one to three
    requests per poll. *)
Lemma checkStatus_total (net : script) (uploadId : string)
    (progressCallback : bool) :
  forall (fuel : nat) (attempts : Z) (w : world),
    (Z.to_nat (maxAttempts - attempts) <= fuel)%nat ->
    (1 <= fuel)%nat ->
    exists s n c tr,
      checkStatus net uploadId progressCallback fuel attempts w
      = (Ok (s, n), after_calls w c tr)
      /\ (attempts < n <= Z.max maxAttempts (attempts + 1))%Z
      /\ (n - attempts <= Z.of_nat c <= 3 * (n - attempts))%Z
      /\ Forall numeric_call (observations tr)
      /\ (forall merged, s = Resolved merged -> progressCallback = true ->
          exists front, observations tr = (front ++ [completed_call])%list).
Proof.
  induction fuel as [|fuel IH]; intros attempts w Hfuel Hpos; [lia|].
  cbn [checkStatus]. unfold bind at 1.
  destruct (poll_once_total net uploadId progressCallback (attempts + 1) w)
    as (s & c & tr & Hrun & Hc & Hnum & Hagain & Hdone).
  rewrite Hrun. destruct s as [r|].
  - exists r, (attempts + 1)%Z, c, tr. unfold ret.
    repeat split; try lia; try assumption.
    intros merged Hr Hcb. subst r. now apply (Hdone merged).
  - specialize (Hagain eq_refl).
    unfold bind at 1, sleep at 1, emit at 1. rewrite after_calls_emit.
    destruct (IH (attempts + 1)%Z (after_calls w c (tr ++ [Wait 5000]))
                ltac:(unfold maxAttempts in *; lia)
                ltac:(unfold maxAttempts in *; lia))
      as (s & n & c' & tr' & Hrun' & Hn & Hc' & Hnum' & Hdone').
    rewrite Hrun', after_calls_comp.
    exists s, n, (c + c')%nat, ((tr ++ [Wait 5000]) ++ tr')%list.
    repeat split; try lia.
    + rewrite !observations_app. cbn [observations]. rewrite app_nil_r.
      apply Forall_app. now split.
    + intros merged Hs Hcb. destruct (Hdone' merged Hs Hcb) as [front Hfront].
      exists (observations tr ++ front)%list.
      rewrite !observations_app, Hfront. cbn [observations].
      now rewrite app_nil_r, app_assoc.
Qed.





(** ** Status poller: a completed job *)

Lemma prop_object_inv (v : value) (key : string) :
  prop v key <> JUndefined -> exists o, v = JObj o.
Proof. destruct v; cbn [prop]; try congruence. intros _. now eexists. Qed.

(** A response whose [data] is an object or an array is used as it is. *)
Lemma status_data_truthy (statusResponse data : value) :
  prop statusResponse "data" = data ->
  truthy data = true ->
  status_data statusResponse = data.
Proof.
  intros Hdata Htruthy.
  destruct (prop_object_inv statusResponse "data") as [o ->].
  { rewrite Hdata. intro H. rewrite H in Htruthy. discriminate. }
  unfold status_data, and_then. cbn [truthy]. now rewrite Hdata, Htruthy.
Qed.

Lemma n_result_normalize (statusData : value) :
  n_result (normalize statusData) = prop statusData "result".
Proof.
  unfold normalize, infer_status.
  repeat match goal with
         | |- context [if ?b then _ else _] => destruct b
         end; reflexivity.
Qed.

Lemma lookup_assign_same (o : list (string * value)) (key : string)
    (x : value) :
  lookup (assign o key x) key = x.
Proof.
  induction o as [|[k v] o IH]; cbn [assign lookup].
  - now rewrite String.eqb_refl.
  - destruct (k =? key) eqn:Hk; cbn [lookup]; now rewrite Hk.
Qed.

Lemma map_from_length (f : value -> nat -> value) (l : list value) :
  forall index, List.length (map_from f index l) = List.length l.
Proof. induction l as [|x l IH]; intro index; simpl; [|rewrite IH]; reflexivity. Qed.

Lemma map_from_nth (f : value -> nat -> value) (l : list value) :
  forall index i,
    (i < List.length l)%nat ->
    nth i (map_from f index l) JUndefined
    = f (nth i l JUndefined) (index + i)%nat.
Proof.
  induction l as [|x l IH]; intros index i Hi; simpl in Hi; [lia|].
  destruct i as [|i]; cbn [map_from nth].
  - now rewrite Nat.add_0_r.
  - rewrite IH by lia. f_equal. lia.
Qed.

(** The [rows] of a merged entry. *)
Lemma merge_entry_rows (parsed_timetables timetable : value) (index : nat) :
  prop (merge_entry parsed_timetables timetable index) "rows"
  = if truthy (at_index parsed_timetables index)
    then prop (at_index parsed_timetables index) "rows"
    else JArr [].
Proof. unfold merge_entry. cbn [prop]. apply lookup_assign_same. Qed.

(** C1, as amended.  When a status poll returns
    [{State: "completed", result: {timetables_raw: X}}], the status being
    in lower case, the poller resolves on that poll with the result object
    to which [timetables] has been added, equal to [X]. *)
Theorem completed_raw_is_aliased (net : script) (uploadId : string)
    (progressCallback : bool) (fuel : nat) (attempts : Z) (w : world)
    (statusResponse : value) (X : list value) :
  net (calls w) = Fulfilled statusResponse ->
  prop statusResponse "data" = raw_only "completed" X ->
  exists merged w',
    checkStatus net uploadId progressCallback (S fuel) attempts w
    = (Ok (Resolved merged, (attempts + 1)%Z), w')
    /\ merged = JObj [("timetables_raw", JArr X); ("timetables", JArr X)]
    /\ prop merged "timetables" = JArr X
    /\ calls w' = S (calls w).
Proof.
  intros Hnet Hdata.
  pose proof (status_data_truthy _ _ Hdata eq_refl) as Hsd.
  cbn [checkStatus]. unfold bind at 1.
  rewrite (poll_once_response net uploadId progressCallback (attempts + 1) w
             _ _ (request_fulfilled net _ w _ Hnet)).
  rewrite Hsd. cbn.
  eexists. eexists. split; [reflexivity|].
  repeat split. cbn. lia.
Qed.

Lemma completed_raw_is_aliased_witness :
  exists merged w',
    checkStatus (always (raw_only "completed" [JStr "A"])) "job" true 1 0 start
    = (Ok (Resolved merged, 1%Z), w')
    /\ merged = JObj [("timetables_raw", JArr [JStr "A"]);
                      ("timetables", JArr [JStr "A"])]
    /\ prop merged "timetables" = JArr [JStr "A"]
    /\ calls w' = 1%nat.
Proof.
  apply (completed_raw_is_aliased (always (raw_only "completed" [JStr "A"]))
           "job" true 0 0 start
           (JObj [("data", raw_only "completed" [JStr "A"]);
                  ("status", JInt 200)])
           [JStr "A"]); reflexivity.
Defined.

(** C1 as stated fails: the status is compared with ["completed"] exactly,
    so a server that answers every poll with
    [{State: "Completed", result: {timetables_raw: X}}] is polled 120 times
    and the promise is rejected with the timeout error. *)
Lemma capitalised_Completed_is_not_completed :
  fst (pollForCompletion (always (raw_only "Completed" [JStr "A"])) "job"
         true start)
  = Ok (Rejected timeout_reason, 120%Z)
  /\ forall merged n,
      fst (pollForCompletion (always (raw_only "Completed" [JStr "A"])) "job"
             true start)
      <> Ok (Resolved merged, n).
Proof.
  assert (H : fst (pollForCompletion
                     (always (raw_only "Completed" [JStr "A"])) "job"
                     true start)
              = Ok (Rejected timeout_reason, 120%Z))
    by (vm_compute; reflexivity).
  split; [exact H|]. intros merged n. rewrite H. discriminate.
Qed.

(** The merge of a result that carries [timetables] and
    [parsed_timetables], both arrays. *)
Lemma merge_result_arrays (result0 : value) (T P : list value) (w : world) :
  prop result0 "timetables" = JArr T ->
  prop result0 "parsed_timetables" = JArr P ->
  merge_result result0 w
  = (Ok (set_prop result0 "timetables"
           (JArr (map_from (merge_entry (JArr P)) 0 T))), w).
Proof.
  intros HT HP. unfold merge_result. rewrite HT. cbn [truthy negb andb].
  rewrite HP, HT. reflexivity.
Qed.

(** C9, as amended.  On a completed job whose result carries a
    [timetables] array [T] and a [parsed_timetables] array [P], the poll
    resolves (no error) with a result whose [timetables] has one entry per
    entry of [T].  Entry [i] has the [rows] of [P[i]] when [P[i]] is truthy
    and [rows: []] when it is falsy ([null], [0], the empty string) or
    missing.  So with the same length every entry whose parsed one is
    truthy has its rows, and when [P] is shorter every entry without a
    parsed one has [rows: []]. *)
Theorem merge_attaches_rows (net : script) (uploadId : string)
    (progressCallback : bool) (fuel : nat) (attempts : Z) (w : world)
    (statusResponse result0 : value) (T P : list value) :
  net (calls w) = Fulfilled statusResponse ->
  is_string (n_status (normalize (status_data statusResponse))) "completed"
  = true ->
  prop (status_data statusResponse) "result" = result0 ->
  prop result0 "timetables" = JArr T ->
  prop result0 "parsed_timetables" = JArr P ->
  exists merged entries w',
    checkStatus net uploadId progressCallback (S fuel) attempts w
    = (Ok (Resolved merged, (attempts + 1)%Z), w')
    /\ prop merged "timetables" = JArr entries
    /\ List.length entries = List.length T
    /\ (forall i, (i < List.length T)%nat ->
          prop (nth i entries JUndefined) "rows"
          = if truthy (nth i P JUndefined)
            then prop (nth i P JUndefined) "rows" else JArr [])
    /\ (List.length T = List.length P ->
        forall i, (i < List.length T)%nat ->
          (truthy (nth i P JUndefined) = true ->
           prop (nth i entries JUndefined) "rows"
           = prop (nth i P JUndefined) "rows")
          /\ (truthy (nth i P JUndefined) = false ->
              prop (nth i entries JUndefined) "rows" = JArr []))
    /\ (List.length P < List.length T ->
        forall i, (List.length P <= i < List.length T)%nat ->
          prop (nth i entries JUndefined) "rows" = JArr [])%nat.
Proof.
  intros Hnet Hcompleted Hresult HT HP.
  destruct (prop_object_inv result0 "timetables") as [o ->];
    [rewrite HT; discriminate|].
  cbn [checkStatus]. unfold bind at 1.
  rewrite (poll_once_response net uploadId progressCallback (attempts + 1) w
             _ _ (request_fulfilled net _ w _ Hnet)).
  rewrite Hcompleted, n_result_normalize, Hresult. cbn [truthy].
  rewrite (merge_result_arrays _ T P _ HT HP). unfold ret.
  eexists. exists (map_from (merge_entry (JArr P)) 0 T). eexists.
  split; [reflexivity|].
  split; [cbn [set_prop prop]; apply lookup_assign_same|].
  split; [apply map_from_length|].
  assert (Hrows : forall i, (i < List.length T)%nat ->
            prop (nth i (map_from (merge_entry (JArr P)) 0 T) JUndefined)
              "rows"
            = if truthy (nth i P JUndefined)
              then prop (nth i P JUndefined) "rows" else JArr []).
  { intros i Hi. rewrite map_from_nth by exact Hi.
    rewrite merge_entry_rows. reflexivity. }
  split; [exact Hrows|]. split.
  - intros _ i Hi. rewrite (Hrows i Hi).
    split; intro Htruthy; now rewrite Htruthy.
  - intros Hlen i Hi. rewrite Hrows by lia.
    rewrite nth_overflow by lia. reflexivity.
Qed.

Lemma merge_attaches_rows_witness :
  (exists merged entries w',
      checkStatus (always two_and_two) "job" true 1 0 start
      = (Ok (Resolved merged, 1%Z), w')
      /\ prop merged "timetables" = JArr entries
      /\ prop (nth 1 entries JUndefined) "rows"
         = JArr [JStr "b1"; JStr "b2"])
  /\ (exists merged entries w',
      checkStatus (always three_and_two) "job" true 1 0 start
      = (Ok (Resolved merged, 1%Z), w')
      /\ prop merged "timetables" = JArr entries
      /\ prop (nth 2 entries JUndefined) "rows" = JArr []).
Proof.
  split.
  - destruct (merge_attaches_rows (always two_and_two) "job" true 0 0 start
                (JObj [("data", two_and_two); ("status", JInt 200)])
                (prop two_and_two "result")
                [JObj [("title", JStr "A")];
                 JObj [("title", JStr "B"); ("rows", JNull)]]
                [JObj [("rows", JArr [JStr "a1"])];
                 JObj [("rows", JArr [JStr "b1"; JStr "b2"])]]
                eq_refl eq_refl eq_refl eq_refl eq_refl)
      as (merged & entries & w' & Hrun & Hentries & _ & _ & Hsame & _).
    exists merged, entries, w'.
    split; [exact Hrun|]. split; [exact Hentries|].
    apply (Hsame eq_refl 1%nat); [simpl; lia|reflexivity].
  - destruct (merge_attaches_rows (always three_and_two) "job" true 0 0 start
                (JObj [("data", three_and_two); ("status", JInt 200)])
                (prop three_and_two "result")
                [JObj [("title", JStr "A")]; JObj [("title", JStr "B")];
                 JObj [("title", JStr "C")]]
                [JObj [("rows", JArr [JStr "a1"])];
                 JObj [("rows", JArr [JStr "b1"; JStr "b2"])]]
                eq_refl eq_refl eq_refl eq_refl eq_refl)
      as (merged & entries & w' & Hrun & Hentries & _ & _ & _ & Hshort).
    exists merged, entries, w'.
    split; [exact Hrun|]. split; [exact Hentries|].
    apply Hshort; simpl; lia.
Defined.

(** C9 as stated fails: with as many parsed entries as timetables, an entry
    whose parsed one is [0] gets [rows: []], whereas [(0).rows] is
    [undefined]; so does an entry whose parsed one is [null]. *)
Lemma falsy_parsed_entry_gets_empty_rows :
  exists merged entries P w',
    checkStatus (always falsy_parsed) "job" true 1 0 start
    = (Ok (Resolved merged, 1%Z), w')
    /\ prop merged "timetables" = JArr entries
    /\ prop (prop falsy_parsed "result") "parsed_timetables" = JArr P
    /\ List.length entries = List.length P
    /\ nth 1 P JUndefined = JInt 0
    /\ prop (nth 1 P JUndefined) "rows" = JUndefined
    /\ prop (nth 1 entries JUndefined) "rows" = JArr []
    /\ prop (nth 1 entries JUndefined) "rows"
       <> prop (nth 1 P JUndefined) "rows"
    /\ nth 2 P JUndefined = JNull
    /\ prop (nth 2 entries JUndefined) "rows" = JArr [].
Proof.
  eexists. eexists. eexists. eexists.
  split; [vm_compute; reflexivity|].
  split; [reflexivity|]. split; [reflexivity|].
  repeat split. discriminate.
Qed.

(** ** Status normalization *)

Lemma infer_status_fields (n : normalized) :
  n_progress (infer_status n) = n_progress n
  /\ n_error (infer_status n) = n_error n.
Proof.
  unfold infer_status.
  repeat match goal with
         | |- context [if ?b then _ else _] => destruct b
         end; split; reflexivity.
Qed.

Lemma infer_status_status (n : normalized) :
  n_status (infer_status n)
  = if truthy (n_status n) then n_status n
    else if truthy (n_result n) then JStr "completed"
    else if truthy (n_error n) then JStr "error"
    else JStr "processing".
Proof.
  destruct n as [s p m r e]. unfold infer_status. cbn [n_status n_result].
  destruct (truthy s) eqn:Hs; cbn [negb andb].
  - cbn [n_status]. rewrite Hs. cbn [negb andb n_status]. now rewrite Hs.
  - destruct (truthy r); cbn [set_status n_status n_error truthy negb andb
                                String.eqb].
    + reflexivity.
    + rewrite Hs. cbn [negb andb].
      destruct (truthy e); cbn [set_status n_status truthy negb String.eqb].
      * reflexivity.
      * now rewrite Hs.
Qed.

Lemma normalize_status (statusData : value) :
  n_status (normalize statusData) = reference_status statusData.
Proof.
  unfold normalize. rewrite infer_status_status.
  unfold reference_status, first_truthy, read_fields, or_else.
  cbn [n_status n_result n_error find].
  destruct (truthy (prop statusData "status")) eqn:H1;
    [decide_ifs; reflexivity|].
  destruct (truthy (prop statusData "State")) eqn:H2;
    [decide_ifs; reflexivity|].
  destruct (truthy (prop statusData "state")) eqn:H3;
    [decide_ifs; reflexivity|].
  destruct (truthy (prop statusData "result")) eqn:H4;
    [decide_ifs; reflexivity|].
  destruct (truthy (prop statusData "error")) eqn:H5;
    [decide_ifs; reflexivity|].
  destruct (truthy (prop statusData "Error")) eqn:H6;
    decide_ifs; reflexivity.
Qed.

(** C5, as amended.  The status is the first truthy value among the raw
    keys [status], [State], [state]; with none, a truthy [result] gives
    "completed", otherwise a truthy [error] or [Error] gives "error",
    otherwise "processing"; the progress is the raw one when it is a number
    and 0 otherwise.  When no status and no result is truthy and [error]
    (or [Error]) is, the status is "error" and the poll rejects with that
    error. *)
Theorem normalize_rule (statusData : value) :
  n_status (normalize statusData) = reference_status statusData
  /\ n_progress (normalize statusData)
     = match prop statusData "progress" with
       | JNum p => JNum p
       | _ => JInt 0
       end
  /\ (forall (net : script) (uploadId : string) (progressCallback : bool)
        (fuel : nat) (attempts : Z) (w : world)
        (statusResponse reason : value),
      net (calls w) = Fulfilled statusResponse ->
      status_data statusResponse = statusData ->
      first_truthy [prop statusData "status"; prop statusData "State";
                    prop statusData "state"] = None ->
      truthy (prop statusData "result") = false ->
      first_truthy [prop statusData "error"; prop statusData "Error"]
      = Some reason ->
      n_status (normalize statusData) = JStr "error"
      /\ exists w',
          checkStatus net uploadId progressCallback (S fuel) attempts w
          = (Ok (Rejected reason, (attempts + 1)%Z), w')).
Proof.
  split; [apply normalize_status|]. split.
  - unfold normalize. rewrite (proj1 (infer_status_fields _)).
    unfold read_fields; cbn [n_progress].
    now destruct (prop statusData "progress").
  - intros net uploadId progressCallback fuel attempts w statusResponse reason
      Hnet Hsd Hstatus Hresult Herror.
    assert (Hst : n_status (normalize statusData) = JStr "error").
    { rewrite normalize_status. unfold reference_status.
      now rewrite Hstatus, Hresult, Herror. }
    split; [exact Hst|].
    assert (Hreason : n_error (normalize statusData) ||| JStr "Generation failed"
                      = reason).
    { unfold normalize. rewrite (proj2 (infer_status_fields _)).
      unfold read_fields; cbn [n_error]. unfold or_else.
      unfold first_truthy in Herror. cbn [find] in Herror.
      destruct (truthy (prop statusData "error")) eqn:H1;
        [|destruct (truthy (prop statusData "Error")) eqn:H2];
        rewrite ?H1, ?H2 in Herror; decide_ifs; congruence. }
    cbn [checkStatus]. unfold bind at 1.
    rewrite (poll_once_response net uploadId progressCallback (attempts + 1) w
               _ _ (request_fulfilled net _ w _ Hnet)).
    rewrite Hsd, Hst, Hreason. cbn [is_string String.eqb Ascii.eqb Bool.eqb].
    unfold ret. eexists. reflexivity.
Qed.

Lemma normalize_rule_witness :
  n_status (normalize (JObj [("Error", JStr "boom")])) = JStr "error"
  /\ exists w',
      checkStatus (always (JObj [("Error", JStr "boom")])) "job" true 1 0
        start
      = (Ok (Rejected (JStr "boom"), 1%Z), w').
Proof.
  apply (proj2 (proj2 (normalize_rule (JObj [("Error", JStr "boom")])))
           (always (JObj [("Error", JStr "boom")])) "job" true 0%nat 0%Z start
           (JObj [("data", JObj [("Error", JStr "boom")]);
                  ("status", JInt 200)])
           (JStr "boom"));
    reflexivity.
Defined.

(** C5 as stated fails.  The source also reads the key [Error], so
    [{Error: "boom"}] is an error for the poller and processing for the
    reference definition; and it tests truthiness, so with [{error: ""}],
    an [error] field that is not null, the status is "processing" and the
    poller goes on polling instead of rejecting. *)
Lemma normalize_differs_from_spec_status :
  (n_status (normalize (JObj [("Error", JStr "boom")])) = JStr "error"
   /\ spec_status (JObj [("Error", JStr "boom")]) = JStr "processing")
  /\ (spec_status (JObj [("error", JStr "")]) = JStr "error"
      /\ n_status (normalize (JObj [("error", JStr "")])) = JStr "processing"
      /\ fst (poll_once (always (JObj [("error", JStr "")])) "job" true 1
                start)
         = Ok Again).
Proof. repeat split. Qed.

(** ** Progress reported to the observer *)

Lemma clampedProgress_range (p : Num.number) :
  Num.is_NaN p = false ->
  Num.le (Num.of_Z 30) (clampedProgress p)
  /\ Num.le (clampedProgress p) (Num.of_Z 100).
Proof.
  unfold Num.le, clampedProgress, Num.of_Z.
  destruct p as [| |q|]; cbn [Num.is_NaN]; intro H; try discriminate;
    [split; reflexivity | | split; reflexivity].
  cbn [Num.max Num.min].
  q_cases; cbn [Num.max Num.min Num.leb]; q_cases;
    cbn [Num.leb]; split; try reflexivity;
    try (apply Qle_bool_iff); unfold inject_Z in *; try lra.
Qed.

Lemma clampedProgress_monotone (a b : Num.number) :
  Num.le a b -> Num.le (clampedProgress a) (clampedProgress b).
Proof.
  unfold Num.le, clampedProgress, Num.of_Z.
  destruct a as [| |p|], b as [| |q|]; cbn [Num.leb]; intro H;
    try discriminate; cbn [Num.max Num.min];
    q_cases; cbn [Num.max Num.min Num.leb]; q_cases; cbn [Num.leb];
    try reflexivity; try (apply Qle_bool_iff); unfold inject_Z in *; try lra.
Qed.

Lemma progressCallback_numeric (progressData : value) (u : ui)
    (p : Num.number) :
  truthy progressData = true ->
  percentage_of progressData = Some p ->
  progress (progressCallback progressData u) = clampedProgress p.
Proof.
  unfold progressCallback, percentage_of. intros Htruthy Hp.
  rewrite Htruthy. cbn [negb].
  destruct (prop progressData "percentage"); try discriminate.
  injection Hp as ->. cbn [is_number].
  now destruct (truthy (prop progressData "message")).
Qed.

Lemma displayed_numeric (calls : list value) :
  Forall numeric_call calls ->
  exists ps,
    map percentage_of calls = map Some ps
    /\ forall u, displayed calls u = map clampedProgress ps.
Proof.
  induction 1 as [|pd calls [Htruthy [p Hp]] _ [ps [Hps Hshown]]].
  - exists []. split; reflexivity.
  - exists (p :: ps). split.
    + cbn [map]. now rewrite Hp, Hps.
    + intro u. cbn [displayed map].
      now rewrite (progressCallback_numeric _ _ _ Htruthy Hp), Hshown.
Qed.

Lemma clamped_sorted (ps : list Num.number) :
  Sorted Num.le ps -> Sorted Num.le (map clampedProgress ps).
Proof.
  induction 1 as [|p ps _ IH Hhd]; cbn [map]; constructor.
  - exact IH.
  - destruct Hhd as [|q ps Hle]; cbn [map]; constructor.
    now apply clampedProgress_monotone.
Qed.

(** C4, as amended.  On every poll whose status request succeeds, the
    poller calls the observer with the normalized progress as it is (the
    raw progress when it is a number, else 0), and on completion once more
    with 100.  The clamping is done by the observer: [progressCallback]
    stores the percentage clamped to 30..100 (for every number but NaN); it
    never stores the server's value unclamped. *)
Theorem observer_clamps_progress (net : script) (uploadId : string)
    (attempts : Z) (w : world) (statusResponse : value) :
  net (calls w) = Fulfilled statusResponse ->
  exists p s rest,
    n_progress (normalize (status_data statusResponse)) = JNum p
    /\ percentage_of (poll_call statusResponse) = Some p
    /\ poll_once net uploadId true attempts w
       = (Ok s,
          after_calls w 1
            (Call :: Observe (poll_call statusResponse) :: rest))
    /\ (rest = [] \/ rest = [Observe completed_call])
    /\ forall u,
        progress (progressCallback (poll_call statusResponse) u)
        = clampedProgress p
        /\ progress (progressCallback completed_call u) = Num.of_Z 100
        /\ (Num.is_NaN p = false ->
            Num.le (Num.of_Z 30) (clampedProgress p)
            /\ Num.le (clampedProgress p) (Num.of_Z 100)).
Proof.
  intro Hnet.
  destruct (normalize_progress_numeric (status_data statusResponse))
    as [p Hp].
  assert (Hpct : percentage_of (poll_call statusResponse) = Some p).
  { unfold percentage_of, poll_call, progress_data. cbn [prop lookup].
    cbn. now rewrite Hp. }
  assert (Hrun : exists s rest,
             poll_once net uploadId true attempts w
             = (Ok s,
                after_calls w 1
                  (Call :: Observe (poll_call statusResponse) :: rest))
             /\ (rest = [] \/ rest = [Observe completed_call])).
  { rewrite (poll_once_response net uploadId true attempts w _ _
               (request_fulfilled net _ w _ Hnet)).
    rewrite !after_calls_comp. cbn [Nat.add app].
    set (n := normalize (status_data statusResponse)).
    set (w2 := after_calls w 1 [Call; Observe (poll_call statusResponse)]).
    destruct (is_string (n_status n) "completed").
    - assert (Hcase :
          (exists merged,
              (if truthy (n_result n) then merge_result (n_result n) w2
               else (Ok (n_result n), w2)) = (Ok merged, w2))
          \/ (if truthy (n_result n) then merge_result (n_result n) w2
              else (Ok (n_result n), w2))
             = (Throw (Error "result.timetables.map is not a function"),
                w2)).
      { destruct (truthy (n_result n)).
        - apply merge_result_run.
        - left. eexists. reflexivity. }
      destruct Hcase as [[merged Hm]|Hm]; rewrite Hm.
      + eexists. exists [Observe completed_call]. split; [reflexivity|].
        now right.
      + eexists. exists []. split; [reflexivity|]. now left.
    - destruct (is_string (n_status n) "error");
        [|destruct (maxAttempts <=? attempts)%Z];
        eexists; exists []; (split; [reflexivity|]); now left. }
  destruct Hrun as (s & rest & Hrun & Hrest).
  exists p, s, rest. repeat split; try assumption.
  - apply progressCallback_numeric; [reflexivity | exact Hpct].
  - now apply clampedProgress_range.
  - now apply clampedProgress_range.
Qed.

Lemma observer_clamps_progress_witness :
  exists p s rest,
    n_progress (normalize ten_percent) = JNum p
    /\ percentage_of (progress_data (JInt 10) (JStr "Processing...")) = Some p
    /\ poll_once (always ten_percent) "job" true 1 start
       = (Ok s,
          after_calls start 1
            (Call
             :: Observe (progress_data (JInt 10) (JStr "Processing..."))
             :: rest))
    /\ (rest = [] \/ rest = [Observe completed_call])
    /\ forall u,
        progress
          (progressCallback
             (progress_data (JInt 10) (JStr "Processing...")) u)
        = clampedProgress p
        /\ progress (progressCallback completed_call u) = Num.of_Z 100
        /\ (Num.is_NaN p = false ->
            Num.le (Num.of_Z 30) (clampedProgress p)
            /\ Num.le (clampedProgress p) (Num.of_Z 100)).
Proof.
  exact (observer_clamps_progress (always ten_percent) "job" 1 start
           (JObj [("data", ten_percent); ("status", JInt 200)]) eq_refl).
Defined.

(** C4 as stated fails: a poll that reports a progress of 10 calls the
    observer with the percentage 10, below the floor of 30. *)
Lemma observer_is_called_with_raw_progress :
  observations (events (poll_once (always ten_percent) "job" true 1 start))
  = [progress_data (JInt 10) (JStr "Processing...")]
  /\ percentage_of (progress_data (JInt 10) (JStr "Processing..."))
     = Some (Num.of_Z 10)
  /\ Num.leb (Num.of_Z 30) (Num.of_Z 10) = false.
Proof. repeat split. Qed.

(** C8, as amended.  In a polling loop every observer call carries a
    numeric percentage (the normalized progress of the poll, then 100 on
    completion) and the observer stores its clamp to 30..100.  The stored
    value is therefore non-decreasing from one call to the next whenever the
    percentages are; the client does nothing more to hide a decrease. *)
Theorem displayed_progress_follows_percentages (net : script)
    (uploadId : string) :
  let calls :=
    observations (events (pollForCompletion net uploadId true start)) in
  exists ps,
    map percentage_of calls = map Some ps
    /\ displayed calls polling_begins = map clampedProgress ps
    /\ (Sorted Num.le ps -> Sorted Num.le (displayed calls polling_begins)).
Proof.
  destruct (checkStatus_total net uploadId true 120 0%Z start
              ltac:(reflexivity) ltac:(lia))
    as (s & n & c & tr & Hrun & _ & _ & Hnum & _).
  unfold pollForCompletion, events.
  change (Z.to_nat maxAttempts) with 120%nat. rewrite Hrun.
  cbn [snd after_calls trace start app].
  destruct (displayed_numeric _ Hnum) as [ps [Hps Hshown]].
  exists ps. split; [exact Hps|]. split; [apply Hshown|].
  intro Hsorted. rewrite Hshown. now apply clamped_sorted.
Qed.

Lemma displayed_progress_follows_percentages_witness :
  Sorted Num.le
    (displayed
       (observations
          (events (pollForCompletion (always three_and_two) "job" true start)))
       polling_begins).
Proof.
  destruct (displayed_progress_follows_percentages (always three_and_two)
              "job")
    as [ps [Hps [_ Hsorted]]].
  apply Hsorted.
  assert (Hlist : ps = [Num.of_Z 0; Num.of_Z 100]).
  { vm_compute in Hps.
    destruct ps as [|p0 [|p1 [|p2 ps]]]; try discriminate.
    now injection Hps as <- <-. }
  rewrite Hlist. repeat constructor.
Defined.

(** C8 as stated fails: when the server reports 80, then 50, then
    completes without a progress field, the observer is called with 80, 50,
    0 and 100 and stores 80, 50, 30 and 100. *)
Lemma displayed_progress_can_decrease :
  map percentage_of
    (observations (events (pollForCompletion regressing "job" true start)))
  = [Some (Num.of_Z 80); Some (Num.of_Z 50); Some (Num.of_Z 0);
     Some (Num.of_Z 100)]
  /\ displayed
       (observations (events (pollForCompletion regressing "job" true start)))
       polling_begins
     = [Num.of_Z 80; Num.of_Z 50; Num.of_Z 30; Num.of_Z 100]
  /\ Num.leb (Num.of_Z 80) (Num.of_Z 50) = false
  /\ ~ Sorted Num.le
         (displayed
            (observations
               (events (pollForCompletion regressing "job" true start)))
            polling_begins).
Proof.
  assert (Hshown :
      displayed
        (observations (events (pollForCompletion regressing "job" true start)))
        polling_begins
      = [Num.of_Z 80; Num.of_Z 50; Num.of_Z 30; Num.of_Z 100])
    by (vm_compute; reflexivity).
  split; [vm_compute; reflexivity|].
  split; [exact Hshown|].
  split; [reflexivity|].
  rewrite Hshown. intro Hsorted.
  inversion Hsorted as [|? ? _ Hhd]; subst.
  inversion Hhd as [|? ? Hle]; subst.
  discriminate Hle.
Qed.

(** ** Export *)

(** C6, at the failing input.  With the format "PDF" the request asks for
    "pdf", yet the file is saved under a name in [.xlsx]: the name is chosen
    by comparing the format as given, not the lower-cased one.  With "pdf"
    the name ends in [.pdf]. *)
Theorem upper_case_PDF_is_saved_as_xlsx (timestamp uploadId : string) :
  prop (export_body uploadId "PDF") "format" = JStr "pdf"
  /\ download_filename timestamp "PDF" = "timetable_" ++ timestamp ++ ".xlsx"
  /\ download_filename timestamp "pdf" = "timetable_" ++ timestamp ++ ".pdf"
  /\ events (downloadTimetable (always (JStr "%PDF-1.7")) "2025-01-15"
               uploadId "PDF" start)
     = [Call; Download "timetable_2025-01-15.xlsx"]
  /\ endsWith "timetable_2025-01-15.xlsx" ".pdf" = false.
Proof. repeat split. Qed.

(** ** Upload *)

Lemma post_fulfilled (net : script) (url : string) (body : value) (w : world)
    (response : value) :
  net (calls w) = Fulfilled response ->
  makeRequestWithRetry (apiClient_post net url body) default_retries w
  = (Ok response, after_calls w 1 [Call]).
Proof. exact (request_fulfilled net url w response). Qed.

(** What [handleGenerate] reads from what [uploadFile] returns. *)
Lemma currentUploadId_of_uploadFile (uploadId data : value) :
  truthy uploadId = true ->
  currentUploadId (JObj [("uploadId", uploadId); ("meta", data)]) = uploadId.
Proof.
  intro H. unfold currentUploadId, opt_prop, or_else.
  cbn [nullish prop lookup String.eqb Ascii.eqb Bool.eqb].
  decide_ifs. reflexivity.
Qed.




(** * Further properties *)

(** ** The retry wrapper, whatever the request function does *)

Lemma only_requests_app (tr tr' : list event) :
  only_requests (tr ++ tr') = only_requests tr && only_requests tr'.
Proof. apply forallb_app. Qed.

Lemma only_requests_quiet (tr : list event) :
  only_requests tr = true -> observations tr = [] /\ downloads tr = [].
Proof.
  induction tr as [|[|ms|pd|f] tr IH]; cbn; intro H; try discriminate; auto.
Qed.

(** The loop settles after at most one invocation per index left, at least
    one if an index is left, and does nothing but invoke and wait. *)
Lemma retry_loop_shape (requestFn : script) (retries : Z) :
  forall (fuel : nat) (i : Z) (w : world),
    (Z.to_nat (retries - i) <= fuel)%nat ->
    exists r c tr,
      retry_loop (invoke requestFn) retries fuel i w = (r, after_calls w c tr)
      /\ r <> OutOfFuel
      /\ (c <= Z.to_nat (retries - i))%nat
      /\ ((0 < retries - i)%Z -> (0 < c)%nat)
      /\ only_requests tr = true
      /\ invocations tr = c.
Proof.
  induction fuel as [|fuel IH]; intros i w Hfuel.
  - cbn [retry_loop]. replace (i <? retries)%Z with false by lia.
    exists (Ok JUndefined), 0%nat, []. unfold ret. rewrite <- after_calls_0.
    repeat split; try discriminate; lia.
  - cbn [retry_loop]. destruct (i <? retries)%Z eqn:Hlt.
    2:{ exists (Ok JUndefined), 0%nat, []. unfold ret.
        rewrite <- after_calls_0. apply Z.ltb_ge in Hlt.
        repeat split; try discriminate; lia. }
    apply Z.ltb_lt in Hlt.
    unfold try_catch at 1, invoke at 1.
    assert (Hw1 : {| calls := S (calls w); trace := trace w ++ [Call] |}
                  = after_calls w 1 [Call]).
    { unfold after_calls. f_equal. lia. }
    rewrite Hw1.
    destruct (requestFn (calls w)) as [v|e].
    + exists (Ok v), 1%nat, [Call].
      repeat split; try discriminate; lia.
    + destruct (i =? retries - 1)%Z.
      { exists (Throw e), 1%nat, [Call].
        repeat split; try discriminate; lia. }
      destruct (transient e).
      2:{ exists (Throw e), 1%nat, [Call].
          repeat split; try discriminate; lia. }
      unfold bind at 1, sleep at 1, emit at 1.
      rewrite after_calls_emit.
      destruct (IH (i + 1)%Z
                  (after_calls w 1 ([Call] ++ [Wait (1000 * (i + 1))]))
                  ltac:(lia))
        as (r & c & tr & Hrun & Hr & Hc & _ & Hquiet & Hinv).
      rewrite Hrun, after_calls_comp.
      exists r, (1 + c)%nat, (([Call] ++ [Wait (1000 * (i + 1))]) ++ tr)%list.
      repeat split; try assumption; try lia.
      rewrite invocations_app, Hinv. reflexivity.
Qed.

(** Any request through the wrapper with the default budget. *)
Lemma request_settles (requestFn : script) (w : world) :
  exists r c tr,
    makeRequestWithRetry (invoke requestFn) default_retries w
    = (r, after_calls w c tr)
    /\ r <> OutOfFuel
    /\ (1 <= c <= 3)%nat
    /\ only_requests tr = true
    /\ invocations tr = c.
Proof.
  destruct (retry_loop_shape requestFn default_retries
              (Z.to_nat default_retries) 0 w ltac:(reflexivity))
    as (r & c & tr & Hrun & Hr & Hc & Hpos & Hquiet & Hinv).
  exists r, c, tr. specialize (Hpos ltac:(reflexivity)). cbn in Hc.
  repeat split; try assumption; lia.
Qed.

(** The request fails for good after [m] temporary failures. *)
Lemma request_fails (requestFn : script) (w : world) (m : nat) (e : exn) :
  (m < 3)%nat ->
  transient_failures requestFn (calls w) m ->
  requestFn (calls w + m)%nat = Failed e ->
  transient e = false \/ m = 2%nat ->
  makeRequestWithRetry (invoke requestFn) default_retries w
  = (Throw e, after_calls w (S m) (retry_trace 0 m)).
Proof.
  intros Hm Hpre He Hlast. unfold makeRequestWithRetry.
  rewrite (retry_loop_run requestFn default_retries m _ 0 w);
    [ | unfold default_retries; lia | cbn; lia | exact Hpre ].
  rewrite He. destruct Hlast as [Ht| ->].
  - rewrite Ht. now rewrite orb_true_r.
  - reflexivity.
Qed.

(** ** The poller: last observer call, failed requests *)

(** X1. When the poller resolves and an observer was passed, the last call
    the observer receives is [{percentage: 100, message: "Completed"}],
    whatever the server sent before. *)
Theorem resolved_poll_ends_with_completed_call (net : script)
    (uploadId : string) (w w' : world) (merged : value) (n : Z) :
  pollForCompletion net uploadId true w = (Ok (Resolved merged, n), w') ->
  exists c tr front,
    w' = after_calls w c tr
    /\ observations tr = (front ++ [completed_call])%list.
Proof.
  intro Hrun.
  destruct (checkStatus_total net uploadId true 120 0%Z w
              ltac:(reflexivity) ltac:(lia))
    as (s & n' & c & tr & Hrun' & _ & _ & _ & Hdone).
  unfold pollForCompletion in Hrun.
  change (Z.to_nat maxAttempts) with 120%nat in Hrun.
  rewrite Hrun' in Hrun. injection Hrun as Hs Hn Hw.
  destruct (Hdone merged Hs eq_refl) as [front Hfront].
  exists c, tr, front. split; [now symmetry | exact Hfront].
Qed.

Lemma resolved_poll_ends_with_completed_call_witness :
  exists c tr front,
    snd (pollForCompletion regressing "job" true start)
    = after_calls start c tr
    /\ observations tr = (front ++ [completed_call])%list.
Proof.
  apply (resolved_poll_ends_with_completed_call regressing "job" start
           (snd (pollForCompletion regressing "job" true start))
           (JObj [("timetables", JArr [])]) 3%Z).
  vm_compute. reflexivity.
Defined.

(** X2. When the status request of a poll fails for good (an error that
    is not temporary, or the third temporary one), the poller rejects at
    once, without calling the observer and without another poll.  The
    reason is the CORS-policy message when the message of the error contains
    "CORS" in capitals, and the message of the error otherwise. *)
Theorem failed_status_request_rejects (net : script) (uploadId : string)
    (progressCallback : bool) (fuel : nat) (attempts : Z) (w : world)
    (m : nat) (e : exn) :
  (m < 3)%nat ->
  transient_failures net (calls w) m ->
  net (calls w + m)%nat = Failed e ->
  transient e = false \/ m = 2%nat ->
  checkStatus net uploadId progressCallback (S fuel) attempts w
  = (Ok (Rejected (request_failure_reason e), (attempts + 1)%Z),
     after_calls w (S m) (retry_trace 0 m)).
Proof.
  intros Hm Hpre He Hlast.
  cbn [checkStatus]. unfold bind at 1. unfold poll_once, try_catch.
  unfold bind at 1. unfold apiClient_get.
  rewrite (request_fails net w m e Hm Hpre He Hlast).
  unfold request_failure_reason, cors_policy_message.
  now destruct (includes (message e) "CORS").
Qed.

Lemma failed_status_request_rejects_witness :
  checkStatus (failing (Error "cors preflight blocked")) "job" true 1 0 start
  = (Ok (Rejected (JStr "cors preflight blocked"), 1%Z),
     {| calls := 3; trace := [Call; Wait 1000; Call; Wait 2000; Call] |})
  /\ checkStatus (failing (Error cors_message)) "job" true 1 0 start
     = (Ok (Rejected (JStr cors_policy_message), 1%Z),
        {| calls := 3; trace := [Call; Wait 1000; Call; Wait 2000; Call] |}).
Proof.
  split.
  - apply (failed_status_request_rejects
             (failing (Error "cors preflight blocked")) "job" true 0 0 start 2
             (Error "cors preflight blocked")); [lia | | reflexivity | now right].
    intros k _. eexists. split; reflexivity.
  - apply (failed_status_request_rejects
             (failing (Error cors_message)) "job" true 0 0 start 2
             (Error cors_message)); [lia | | reflexivity | now right].
    intros k _. eexists. split; reflexivity.
Defined.

(** ** The response interceptor and the retry wrapper *)

Lemma prefix_first_char (c a : ascii) (r s : string) :
  (a =? c)%char = false -> String.prefix (String c r) (String a s) = false.
Proof.
  intro H. cbn [String.prefix]. destruct (ascii_dec c a) as [->|]; [|reflexivity].
  now rewrite Ascii.eqb_refl in H.
Qed.

(** A needle whose first character the string does not hold is not found. *)
Lemma includes_first_char (c : ascii) (r hay : string) :
  all_chars (fun a => negb (a =? c)%char) hay = true ->
  includes hay (String c r) = false.
Proof.
  induction hay as [|a hay IH]; cbn [all_chars includes]; intro H.
  - reflexivity.
  - apply andb_prop in H. destruct H as [Ha Hrest].
    rewrite prefix_first_char by now apply negb_true_iff.
    now rewrite IH.
Qed.

Lemma all_chars_app (P : ascii -> bool) (s t : string) :
  all_chars P (s ++ t) = all_chars P s && all_chars P t.
Proof.
  induction s as [|a s IH]; cbn [append all_chars]; [reflexivity|].
  now rewrite IH, andb_assoc.
Qed.

Lemma no_marker_letter_lower (a : ascii) :
  no_marker_letter a = true ->
  (lower_ascii a =? "c")%char = false
  /\ (lower_ascii a =? "b")%char = false
  /\ (lower_ascii a =? "n")%char = false.
Proof.
  unfold no_marker_letter. cbn [existsb]. rewrite !orb_false_r.
  intro H. apply negb_true_iff in H.
  apply orb_false_elim in H. destruct H as [Hc H].
  apply orb_false_elim in H. destruct H as [Hb Hn].
  rewrite Ascii.eqb_sym in Hc, Hb, Hn. auto.
Qed.

Lemma lower_chars (c : ascii) (s : string) :
  (forall a, no_marker_letter a = true -> (lower_ascii a =? c)%char = false) ->
  all_chars no_marker_letter s = true ->
  all_chars (fun a => negb (a =? c)%char) (toLowerCase s) = true.
Proof.
  intros Hc. induction s as [|a s IH]; cbn [all_chars toLowerCase]; intro H.
  - reflexivity.
  - apply andb_prop in H. destruct H as [Ha Hrest].
    rewrite (Hc a Ha), IH by assumption. reflexivity.
Qed.

(** A message without the letters c, b and n is not a temporary error. *)
Lemma no_marker_not_transient (msg : string) :
  all_chars no_marker_letter msg = true -> transient (Error msg) = false.
Proof.
  intro H. unfold transient. cbn [message].
  rewrite !includes_first_char; [reflexivity | | | ];
    apply lower_chars; try assumption;
    intros a Ha; now apply no_marker_letter_lower in Ha.
Qed.

Lemma digits_no_marker (d : Decimal.uint) :
  all_chars no_marker_letter (NilEmpty.string_of_uint d) = true.
Proof. induction d; cbn [NilEmpty.string_of_uint all_chars]; auto. Qed.

Lemma decimal_no_marker (z : Z) :
  all_chars no_marker_letter (decimal z) = true.
Proof.
  unfold decimal.
  destruct (Z.to_int z) as [d|d]; cbn [NilZero.string_of_int].
  - destruct d; try reflexivity; apply (digits_no_marker (_ d)).
  - cbn [all_chars]. destruct d; try reflexivity;
      apply (digits_no_marker (_ d)).
Qed.

Lemma connectivity_failure_message (error : axios_error) :
  connectivity_failure error = true ->
  response_rejected error = JStr unreachable_message
  \/ response_rejected error = JStr cors_message.
Proof.
  unfold connectivity_failure, response_rejected.
  destruct (error_response error) as [r|]; intro H; rewrite H.
  - now right.
  - now left.
Qed.

Lemma connectivity_failure_transient (ToString : value -> string)
    (error : axios_error) :
  connectivity_failure error = true ->
  transient (Error (text_of ToString (response_rejected error))) = true.
Proof.
  intro H. destruct (connectivity_failure_message error H) as [-> | ->];
    reflexivity.
Qed.

(** X3. A failure of connectivity (no response with a network error code
    or message, or a response with status 0) leaves the interceptor with a
    message that the retry wrapper takes for temporary: when three
    exchanges in a row fail so, the wrapper sends three requests, waits
    1000 ms and 2000 ms between them, and throws the third error, whose
    message is the unreachable-backend text or the CORS text.  The poller
    turns the second into its CORS-policy message and passes the first
    on. *)
Theorem connectivity_failures_are_retried (ToString : value -> string)
    (raw : nat -> exchange) (w : world) :
  (forall k, (k < 3)%nat ->
     exists error,
       raw (calls w + k)%nat = Errored error
       /\ connectivity_failure error = true) ->
  exists msg,
    makeRequestWithRetry (invoke (intercepted ToString raw)) default_retries w
    = (Throw (Error msg), after_calls w 3 (retry_trace 0 2))
    /\ waits (retry_trace 0 2) = [1000; 2000]%Z
    /\ ((msg = unreachable_message
         /\ request_failure_reason (Error msg) = JStr unreachable_message)
        \/ (msg = cors_message
            /\ request_failure_reason (Error msg) = JStr cors_policy_message)).
Proof.
  intro Hraw.
  destruct (Hraw 2%nat ltac:(lia)) as (error & Herror & Hconn).
  exists (text_of ToString (response_rejected error)).
  split; [|split; [reflexivity|]].
  - apply request_fails; [lia | | | now right].
    + intros k Hk. destruct (Hraw k ltac:(lia)) as (e' & He' & Hc').
      eexists. unfold intercepted. rewrite He'. split; [reflexivity|].
      now apply connectivity_failure_transient.
    + unfold intercepted. now rewrite Herror.
  - destruct (connectivity_failure_message error Hconn) as [-> | ->];
      [left | right]; split; reflexivity.
Qed.

Lemma connectivity_failures_are_retried_witness :
  makeRequestWithRetry
    (invoke (intercepted (fun _ => "") (fun _ => Errored network_down)))
    default_retries start
  = (Throw (Error unreachable_message),
     {| calls := 3; trace := [Call; Wait 1000; Call; Wait 2000; Call] |}).
Proof.
  destruct (connectivity_failures_are_retried (fun _ => "")
              (fun _ => Errored network_down) start)
    as (msg & Hrun & _ & [[-> _] | [Hmsg _]]).
  - intros k _. exists network_down. split; reflexivity.
  - exact Hrun.
  - rewrite Hrun. apply (f_equal (fun r => fst r)) in Hrun.
    cbn in Hrun. injection Hrun as Hrun. rewrite <- Hrun. reflexivity.
Defined.

(** X4. An HTTP failure with a status other than 0 whose body carries
    neither a message nor an error is thrown as "Server error (status)",
    and for no status is that message taken for temporary: the wrapper
    invokes the request once and throws. *)
Theorem server_error_is_not_retried (ToString : value -> string)
    (raw : nat -> exchange) (w : world) (error : axios_error)
    (r : axios_response) :
  raw (calls w) = Errored error ->
  error_response error = Some r ->
  response_status r <> 0%Z ->
  truthy (opt_prop (response_data r) "message") = false ->
  truthy (opt_prop (response_data r) "error") = false ->
  makeRequestWithRetry (invoke (intercepted ToString raw)) default_retries w
  = (Throw (Error ("Server error (" ++ decimal (response_status r) ++ ")")),
     after_calls w 1 [Call]).
Proof.
  intros Hraw Hresp Hstatus Hmsg Herr.
  assert (Hthrown : response_rejected error
                    = JStr ("Server error (" ++ decimal (response_status r)
                            ++ ")")).
  { unfold response_rejected. rewrite Hresp.
    apply Z.eqb_neq in Hstatus. rewrite Hstatus.
    unfold or_else. now decide_ifs. }
  apply (request_fails (intercepted ToString raw) w 0); [lia | | | left].
  - intros k Hk. lia.
  - rewrite Nat.add_0_r. unfold intercepted. now rewrite Hraw, Hthrown.
  - apply no_marker_not_transient.
    change ("Server error (" ++ decimal (response_status r) ++ ")")
      with ("Server error (" ++ (decimal (response_status r) ++ ")")).
    rewrite !all_chars_app, decimal_no_marker. reflexivity.
Qed.

Lemma server_error_is_not_retried_witness :
  makeRequestWithRetry
    (invoke (intercepted (fun _ => "")
               (fun _ => Errored (http_error 503 (JStr "")))))
    default_retries start
  = (Throw (Error "Server error (503)"), {| calls := 1; trace := [Call] |}).
Proof.
  apply (server_error_is_not_retried (fun _ => "")
           (fun _ => Errored (http_error 503 (JStr ""))) start
           (http_error 503 (JStr ""))
           {| response_status := 503; response_data := JStr "" |});
    try reflexivity.
  discriminate.
Defined.

(** ** Operations that wrap one request *)

Lemma downloads_app (tr tr' : list event) :
  downloads (tr ++ tr') = (downloads tr ++ downloads tr')%list.
Proof.
  induction tr as [|[| |pd|f] tr IH]; simpl; try assumption.
  - reflexivity.
  - now rewrite IH.
Qed.

(** X5. [getTimeSlots] never fails, whatever the server does: after one
    to three requests it returns the data of the response, or, when the
    request has failed for good, the seven default slots. *)
Theorem getTimeSlots_never_fails (net : script) (w : world) :
  exists v c tr,
    getTimeSlots net w = (Ok v, after_calls w c tr)
    /\ (1 <= c <= 3)%nat
    /\ only_requests tr = true
    /\ (forall e,
          makeRequestWithRetry (apiClient_get net "/timetable/timeslots")
            default_retries w = (Throw e, after_calls w c tr) ->
          v = default_time_slots)
    /\ (forall response,
          makeRequestWithRetry (apiClient_get net "/timetable/timeslots")
            default_retries w = (Ok response, after_calls w c tr) ->
          nullish response = false ->
          v = prop response "data").
Proof.
  destruct (request_settles net w) as (r & c & tr & Hrun & Hr & Hc & Hq & _).
  unfold getTimeSlots, try_catch. unfold bind at 1. unfold apiClient_get.
  rewrite Hrun. destruct r as [response|e|]; [| |congruence].
  - destruct (nullish response) eqn:Hnull.
    + exists default_time_slots, c, tr. unfold throw, ret.
      repeat split; try assumption; try lia;
        intros; try discriminate; congruence.
    + exists (prop response "data"), c, tr. unfold ret.
      repeat split; try assumption; try lia;
        intros; try discriminate; congruence.
  - exists default_time_slots, c, tr. unfold ret.
    repeat split; try assumption; try lia;
      intros; try discriminate; congruence.
Qed.

Lemma getTimeSlots_never_fails_witness :
  exists c tr,
    getTimeSlots (failing (Error "Request failed with status code 404")) start
    = (Ok default_time_slots, after_calls start c tr).
Proof.
  destruct (getTimeSlots_never_fails
              (failing (Error "Request failed with status code 404")) start)
    as (v & c & tr & Hrun & _ & _ & Hfail & _).
  exists c, tr. rewrite Hrun.
  rewrite (Hfail (Error "Request failed with status code 404"));
    [reflexivity|].
  vm_compute in Hrun. injection Hrun as _ <- <-. reflexivity.
Defined.

(** [uploadFile] in terms of what its request gave. *)
Lemma uploadFile_run (net : script) (formData : value) (w w1 : world)
    (r : result value) :
  makeRequestWithRetry (invoke net) default_retries w = (r, w1) ->
  uploadFile net formData w
  = (match r with
     | Ok response =>
         if nullish response
         then Throw (upload_failure (cannot_read response "data"))
         else if nullish (prop response "data")
         then Throw (upload_failure
                       (cannot_read (prop response "data") "upload_id"))
         else if truthy (prop (prop response "data") "upload_id"
                         ||| prop (prop response "data") "uploadId"
                         ||| prop (prop response "data") "id")
         then Ok (JObj [("uploadId",
                         prop (prop response "data") "upload_id"
                         ||| prop (prop response "data") "uploadId"
                         ||| prop (prop response "data") "id");
                        ("meta", prop response "data")])
         else Throw (upload_failure (Error "upload_id not returned by server"))
     | Throw e => Throw (upload_failure e)
     | OutOfFuel => OutOfFuel
     end, w1).
Proof.
  intro Hrun. unfold uploadFile, try_catch. unfold bind at 1.
  unfold apiClient_post. rewrite Hrun.
  destruct r as [response|e|]; try reflexivity.
  destruct (nullish response); [reflexivity|].
  destruct (nullish (prop response "data")); [reflexivity|].
  now destruct (truthy _).
Qed.

Lemma upload_failure_reason (err : exn) :
  exists reason,
    reason <> "" /\ upload_failure err = Error ("File upload failed: " ++ reason).
Proof.
  destruct err as [m]. unfold upload_failure. cbn [message].
  destruct (m =? "") eqn:Hm; eexists; (split; [|reflexivity]).
  - discriminate.
  - now apply String.eqb_neq.
Qed.

(** How an upload ends, for the handlers that build on it. *)
Lemma upload_shape (JSON_stringify : value -> string) (net : script)
    (formData : value) (w : world) :
  exists c tr,
    (1 <= c <= 3)%nat
    /\ only_requests tr = true
    /\ ((exists uploadId data,
            truthy uploadId = true
            /\ uploadFile net formData w
               = (Ok (JObj [("uploadId", uploadId); ("meta", data)]),
                  after_calls w c tr)
            /\ handleGenerate_upload JSON_stringify net formData w
               = (Ok uploadId, after_calls w c tr))
        \/ (exists reason,
              reason <> ""
              /\ uploadFile net formData w
                 = (Throw (Error ("File upload failed: " ++ reason)),
                    after_calls w c tr)
              /\ handleGenerate_upload JSON_stringify net formData w
                 = (Throw (Error ("File upload failed: " ++ reason)),
                    after_calls w c tr))).
Proof.
  destruct (request_settles net w) as (r & c & tr & Hrun & Hr & Hc & Hq & _).
  exists c, tr. split; [exact Hc|]. split; [exact Hq|].
  pose proof (uploadFile_run net formData w _ r Hrun) as Hup.
  assert (Hfail : forall err,
             uploadFile net formData w
             = (Throw (upload_failure err), after_calls w c tr) ->
             exists reason,
               reason <> ""
               /\ uploadFile net formData w
                  = (Throw (Error ("File upload failed: " ++ reason)),
                     after_calls w c tr)
               /\ handleGenerate_upload JSON_stringify net formData w
                  = (Throw (Error ("File upload failed: " ++ reason)),
                     after_calls w c tr)).
  { intros err Herr. destruct (upload_failure_reason err) as (reason & Hne & Heq).
    rewrite Heq in Herr. exists reason. split; [exact Hne|].
    split; [exact Herr|].
    unfold handleGenerate_upload. unfold bind at 1. now rewrite Herr. }
  destruct r as [response|e|]; [| |congruence].
  - destruct (nullish response); [right; now apply (Hfail _ Hup)|].
    destruct (nullish (prop response "data"));
      [right; now apply (Hfail _ Hup)|].
    destruct (truthy _) eqn:Hid; [|right; now apply (Hfail _ Hup)].
    left. eexists. eexists. split; [exact Hid|]. split; [exact Hup|].
    unfold handleGenerate_upload. unfold bind at 1. rewrite Hup.
    rewrite (currentUploadId_of_uploadFile _ _ Hid), Hid. reflexivity.
  - right. now apply (Hfail _ Hup).
Qed.

(** X6. [uploadFile] settles after one to three requests, whatever the
    server does.  Either it returns [{uploadId, meta}] with a truthy
    [uploadId], which the extraction of [handleGenerate] then finds, or it
    throws an error whose message is "File upload failed: " followed by a
    reason that is not empty; [handleGenerate] never gets to throw its own
    error about a missing id. *)
Theorem upload_settles (JSON_stringify : value -> string) (net : script)
    (formData : value) (w : world) :
  exists c tr,
    (1 <= c <= 3)%nat
    /\ only_requests tr = true
    /\ ((exists uploadId data,
            truthy uploadId = true
            /\ uploadFile net formData w
               = (Ok (JObj [("uploadId", uploadId); ("meta", data)]),
                  after_calls w c tr)
            /\ handleGenerate_upload JSON_stringify net formData w
               = (Ok uploadId, after_calls w c tr))
        \/ (exists reason,
              reason <> ""
              /\ uploadFile net formData w
                 = (Throw (Error ("File upload failed: " ++ reason)),
                    after_calls w c tr)
              /\ handleGenerate_upload JSON_stringify net formData w
                 = (Throw (Error ("File upload failed: " ++ reason)),
                    after_calls w c tr))).
Proof. exact (upload_shape JSON_stringify net formData w). Qed.

(** How a download ends, for the handler that builds on it. *)
Lemma download_shape (net : script)
    (timestamp uploadId format : string) (w : world) :
  exists c tr,
    (1 <= c <= 3)%nat
    /\ ((downloadTimetable net timestamp uploadId format w
         = (Ok JUndefined, after_calls w c tr)
         /\ downloads tr = [download_filename timestamp format])
        \/ (exists reason,
              downloadTimetable net timestamp uploadId format w
              = (Throw (Error ("Download failed: " ++ reason)),
                 after_calls w c tr)
              /\ downloads tr = [])).
Proof.
  destruct (request_settles net w) as (r & c & tr & Hrun & Hr & Hc & Hq & _).
  destruct (only_requests_quiet tr Hq) as [_ Hdl].
  unfold downloadTimetable, try_catch, bind.
  unfold apiClient_post. rewrite Hrun.
  destruct r as [response|e|]; [| |congruence].
  - destruct (nullish response).
    + exists c, tr. split; [exact Hc|]. right. eexists.
      split; [reflexivity | exact Hdl].
    + exists c, (tr ++ [Download (download_filename timestamp format)])%list.
      split; [exact Hc|]. left. split.
      * unfold emit, ret. rewrite after_calls_emit. reflexivity.
      * rewrite downloads_app, Hdl. reflexivity.
  - exists c, tr. split; [exact Hc|]. right. eexists.
    split; [reflexivity | exact Hdl].
Qed.

(** X7. [downloadTimetable] settles after one to three requests.  When it
    succeeds, exactly one file has been saved, under the synthesized name;
    when it fails, no file has been saved and the message of the error
    starts with "Download failed: ". *)
Theorem download_saves_once_on_success (net : script)
    (timestamp uploadId format : string) (w : world) :
  exists c tr,
    (1 <= c <= 3)%nat
    /\ ((downloadTimetable net timestamp uploadId format w
         = (Ok JUndefined, after_calls w c tr)
         /\ downloads tr = [download_filename timestamp format])
        \/ (exists reason,
              downloadTimetable net timestamp uploadId format w
              = (Throw (Error ("Download failed: " ++ reason)),
                 after_calls w c tr)
              /\ downloads tr = [])).
Proof. exact (download_shape net timestamp uploadId format w). Qed.

(** ** The name of the downloaded file *)

Lemma endsWith_refl (s : string) : endsWith s s = true.
Proof. destruct s; cbn [endsWith]; now rewrite String.eqb_refl. Qed.

Lemma endsWith_app (p s : string) : endsWith (p ++ s) s = true.
Proof.
  induction p as [|a p IH]; cbn [append].
  - apply endsWith_refl.
  - cbn [endsWith]. rewrite IH. apply orb_true_r.
Qed.

Lemma endsWith_inv (s suffix : string) :
  endsWith s suffix = true -> exists p, s = p ++ suffix.
Proof.
  induction s as [|a s IH]; cbn [endsWith]; intro H.
  - rewrite orb_false_r in H. apply String.eqb_eq in H. now exists "".
  - apply orb_prop in H. destruct H as [H|H].
    + apply String.eqb_eq in H. now exists "".
    + destruct (IH H) as [p ->]. now exists (String a p).
Qed.

Lemma list_ascii_of_string_app (s t : string) :
  list_ascii_of_string (s ++ t)
  = (list_ascii_of_string s ++ list_ascii_of_string t)%list.
Proof.
  induction s as [|a s IH]; cbn [append list_ascii_of_string app];
    [reflexivity|]. now rewrite IH.
Qed.

Lemma string_app_assoc (s t u : string) : (s ++ t) ++ u = s ++ t ++ u.
Proof. induction s as [|a s IH]; cbn [append]; [|rewrite IH]; reflexivity. Qed.

(** Two strings that end with different characters differ. *)
Lemma last_char_differs (p q s t : string) (a b : ascii) :
  a <> b -> p ++ s ++ String a "" <> q ++ t ++ String b "".
Proof.
  intros Hab Heq. apply (f_equal list_ascii_of_string) in Heq.
  rewrite !list_ascii_of_string_app, !app_assoc in Heq.
  cbn [list_ascii_of_string] in Heq.
  apply app_inj_tail in Heq. destruct Heq as [_ Heq]. contradiction.
Qed.

(** X8. The name of the downloaded file ends in ".pdf" exactly when the
    format passed is the string "pdf" as it is, and in ".xlsx" in every
    other case, "image" and "PDF" included; the format sent to the server
    is the lower-cased one. *)
Theorem download_extension (timestamp uploadId format : string) :
  endsWith (download_filename timestamp format) ".pdf" = (format =? "pdf")
  /\ endsWith (download_filename timestamp format) ".xlsx"
     = negb (format =? "pdf")
  /\ prop (export_body uploadId format) "format" = JStr (toLowerCase format).
Proof.
  unfold download_filename.
  split; [|split; [|reflexivity]]; destruct (format =? "pdf"); cbn [negb].
  - change ("timetable_" ++ timestamp ++ "." ++ "pdf")
      with ("timetable_" ++ timestamp ++ ".pdf").
    rewrite <- string_app_assoc. apply endsWith_app.
  - apply not_true_is_false. intro H.
    apply endsWith_inv in H. destruct H as [p Hp].
    apply (last_char_differs "timetable_" p (timestamp ++ ".xls") ".pd"
             "x" "f"); [discriminate|].
    rewrite string_app_assoc. exact Hp.
  - apply not_true_is_false. intro H.
    apply endsWith_inv in H. destruct H as [p Hp].
    apply (last_char_differs "timetable_" p (timestamp ++ ".pd") ".xls"
             "f" "x"); [discriminate|].
    rewrite string_app_assoc. exact Hp.
  - change ("timetable_" ++ timestamp ++ "." ++ "xlsx")
      with ("timetable_" ++ timestamp ++ ".xlsx").
    rewrite <- string_app_assoc. apply endsWith_app.
Qed.

(** ** [generateTimetable] *)

(** X9. When the server answers the start request with a status other
    than 202, [generateTimetable] fails with "Timetable generation failed:
    Failed to start timetable generation" after that one request: no status
    request is sent and the observer is not called. *)
Theorem generation_not_started (ToString : value -> string)
    (env : optimizer_env) (net : script) (uploadId options : value)
    (progressCallback : bool) (w : world) (startResponse : value) :
  net (calls w) = Fulfilled startResponse ->
  nullish startResponse = false ->
  is_202 (prop startResponse "status") = false ->
  generateTimetable ToString env net uploadId progressCallback options w
  = (Throw (Error
       "Timetable generation failed: Failed to start timetable generation"),
     after_calls w 1 [Call]).
Proof.
  intros Hnet Hnull Hstatus. unfold generateTimetable, try_catch.
  unfold bind at 1. rewrite (post_fulfilled net _ _ w _ Hnet).
  now rewrite Hnull, Hstatus.
Qed.

Lemma generation_not_started_witness :
  generateTimetable (fun _ => "") no_env
    (started_then 200 [] (JObj [("status", JStr "completed")]))
    (JStr "job") true JUndefined start
  = (Throw (Error
       "Timetable generation failed: Failed to start timetable generation"),
     {| calls := 1; trace := [Call] |}).
Proof.
  apply (generation_not_started (fun _ => "") no_env
           (started_then 200 [] (JObj [("status", JStr "completed")]))
           (JStr "job") JUndefined true start
           (JObj [("data", JObj []); ("status", JInt 200)]));
    reflexivity.
Defined.

(** How a generation ends, for the handlers that build on it. *)
Lemma generateTimetable_shape (ToString : value -> string)
    (env : optimizer_env) (net : script) (uploadId options : value)
    (progressCallback : bool) (w : world) :
  exists c tr,
    (1 <= c <= 363)%nat
    /\ ((exists timetableData,
            generateTimetable ToString env net uploadId progressCallback
              options w
            = (Ok timetableData, after_calls w c tr)
            /\ (progressCallback = true ->
                exists front,
                  observations tr = (front ++ [completed_call])%list))
        \/ (exists reason,
              reason <> ""
              /\ generateTimetable ToString env net uploadId progressCallback
                   options w
                 = (Throw (Error ("Timetable generation failed: " ++ reason)),
                    after_calls w c tr))).
Proof.
  assert (Hfail : forall e,
             (if message e =? "" then "Unknown error" else message e) <> "").
  { intros [m]. cbn [message]. destruct (m =? "") eqn:Hm; [discriminate|].
    now apply String.eqb_neq. }
  destruct (request_settles net w) as (r & c & tr & Hrun & Hr & Hc & Hq & _).
  unfold generateTimetable, try_catch, await_poll, bind.
  unfold apiClient_post. rewrite Hrun.
  destruct r as [startResponse|e|]; [| |congruence].
  2:{ exists c, tr. split; [lia|]. right. eexists.
      split; [apply Hfail | reflexivity]. }
  destruct (nullish startResponse).
  { exists c, tr. split; [lia|]. right. eexists.
    split; [apply Hfail | reflexivity]. }
  destruct (is_202 (prop startResponse "status")); cbn [negb].
  2:{ exists c, tr. split; [lia|]. right. eexists.
      split; [apply (Hfail (Error "Failed to start timetable generation"))
             | reflexivity]. }
  destruct (checkStatus_total net (text_of ToString uploadId) progressCallback
              120 0%Z (after_calls w c tr) ltac:(reflexivity) ltac:(lia))
    as (s & n & c' & tr' & Hpoll & Hn & Hc' & _ & Hdone).
  unfold pollForCompletion.
  change (Z.to_nat maxAttempts) with 120%nat. rewrite Hpoll, after_calls_comp.
  cbn [fst]. unfold maxAttempts in Hn.
  exists (c + c')%nat, (tr ++ tr')%list. split; [lia|].
  destruct s as [timetableData|reason].
  - left. exists timetableData. split; [reflexivity|].
    intro Hcb. destruct (Hdone timetableData eq_refl Hcb) as [front Hfront].
    exists front. rewrite observations_app, Hfront.
    now rewrite (proj1 (only_requests_quiet tr Hq)).
  - right. eexists. split; [apply Hfail | reflexivity].
Qed.

(** X10. [generateTimetable] always settles, after at most 363 requests
    (three for the start, three for each of at most 120 polls).  When it
    returns and an observer was passed, the last call of the observer is
    [{percentage: 100, message: "Completed"}]; when it fails, the message of
    the error is "Timetable generation failed: " followed by a reason that
    is not empty. *)
Theorem generation_settles (ToString : value -> string)
    (env : optimizer_env) (net : script) (uploadId options : value)
    (progressCallback : bool) (w : world) :
  exists c tr,
    (1 <= c <= 363)%nat
    /\ ((exists timetableData,
            generateTimetable ToString env net uploadId progressCallback
              options w
            = (Ok timetableData, after_calls w c tr)
            /\ (progressCallback = true ->
                exists front,
                  observations tr = (front ++ [completed_call])%list))
        \/ (exists reason,
              reason <> ""
              /\ generateTimetable ToString env net uploadId progressCallback
                   options w
                 = (Throw (Error ("Timetable generation failed: " ++ reason)),
                    after_calls w c tr))).
Proof. exact (generateTimetable_shape ToString env net uploadId options progressCallback w). Qed.

Lemma generation_settles_witness :
  exists timetableData c tr front,
    generateTimetable (fun _ => "") no_env
      (started_then 202 [] (JObj [("status", JStr "completed")]))
      (JStr "job") true JUndefined start
    = (Ok timetableData, after_calls start c tr)
    /\ observations tr = (front ++ [completed_call])%list.
Proof.
  destruct (generation_settles (fun _ => "") no_env
              (started_then 202 [] (JObj [("status", JStr "completed")]))
              (JStr "job") JUndefined true start)
    as (c & tr & _ & [(timetableData & Hrun & Hlast) | (reason & _ & Hrun)]).
  - destruct (Hlast eq_refl) as [front Hfront].
    now exists timetableData, c, tr, front.
  - vm_compute in Hrun. discriminate Hrun.
Defined.

(** ** The configuration sent with the start request *)

Lemma lookup_assign_other (o : list (string * value)) (key key' : string)
    (x : value) :
  key' <> key -> lookup (assign o key' x) key = lookup o key.
Proof.
  intro Hne. apply String.eqb_neq in Hne.
  induction o as [|[k v] o IH]; cbn [assign lookup].
  - now rewrite Hne.
  - destruct (k =? key') eqn:Hk; cbn [lookup].
    + apply String.eqb_eq in Hk. subst k. now rewrite Hne.
    + now rewrite IH.
Qed.

Lemma has_key_in (o : list (string * value)) (key : string) :
  has_key o key = true -> In key (map fst o).
Proof.
  unfold has_key. rewrite existsb_exists. intros [[k v] [Hin Hk]].
  apply String.eqb_eq in Hk. cbn in Hk. subst k.
  now apply (in_map fst) in Hin.
Qed.

(** In [{...a, ...b}] a key of [b] has the value it has in [b], and any
    other key the value it has in [a]. *)
Lemma lookup_merge_props (b : list (string * value)) :
  NoDup (map fst b) ->
  forall (a : list (string * value)) (key : string),
    lookup (merge_props a b) key
    = if has_key b key then lookup b key else lookup a key.
Proof.
  unfold merge_props.
  induction b as [|[k x] b IH]; intros Hnodup a key; [reflexivity|].
  cbn [map fst] in Hnodup. inversion Hnodup as [|? ? Hnotin Hrest]; subst.
  cbn [fold_left fst snd]. rewrite (IH Hrest).
  unfold has_key at 2. cbn [existsb fst lookup]. fold (has_key b key).
  destruct (k =? key) eqn:Hk; cbn [orb].
  - apply String.eqb_eq in Hk. subst k.
    destruct (has_key b key) eqn:Hb.
    + exfalso. apply Hnotin. now apply has_key_in.
    + apply lookup_assign_same.
  - destruct (has_key b key); [reflexivity|].
    apply lookup_assign_other. now apply String.eqb_neq.
Qed.

(** X11. In the configuration of the start request, a setting that the
    caller's options object carries has the caller's value, and any other
    setting has its default: 25, 10, 0.4 and 0.9 when the environment sets
    none. *)
Theorem options_override_defaults (env : optimizer_env)
    (options : list (string * value)) (key : string) :
  NoDup (map fst options) ->
  lookup (generation_config env (JObj options)) key
  = (if has_key options key then lookup options key
     else lookup (default_config env) key)
  /\ default_config no_env
     = [("population_size", JInt 25); ("max_generations", JInt 10);
        ("F", JNum (Num.Fin (4 # 10))); ("CR", JNum (Num.Fin (9 # 10)))].
Proof.
  intro Hnodup. split; [|reflexivity].
  unfold generation_config. cbn [truthy typeof_object andb spread].
  now apply lookup_merge_props.
Qed.

Lemma options_override_defaults_witness :
  lookup (generation_config no_env (JObj [("max_generations", JInt 50)]))
    "max_generations" = JInt 50
  /\ lookup (generation_config no_env (JObj [("max_generations", JInt 50)]))
       "population_size" = JInt 25.
Proof.
  split.
  - apply (proj1 (options_override_defaults no_env
                    [("max_generations", JInt 50)] "max_generations"
                    ltac:(repeat constructor; intros []))).
  - apply (proj1 (options_override_defaults no_env
                    [("max_generations", JInt 50)] "population_size"
                    ltac:(repeat constructor; intros []))).
Defined.

(** ** The handlers of [TimetableGenerator] *)

Lemma extract_is_array (timetableData : value) :
  is_array (Generator.extract_timetables timetableData) = true.
Proof.
  unfold Generator.extract_timetables.
  match goal with
  | |- context [negb (is_array ?t)] => generalize t
  end.
  intro t. destruct t; cbn [is_array negb truthy]; try reflexivity;
    match goal with
    | |- context [if ?b then _ else _] => destruct b; reflexivity
    end.
Qed.

(** X12. What [startGeneration] stores as generated data is always an
    array, whatever [generateTimetable] returned: an array under
    [timetables] is taken as it is, an array returned directly is taken as
    it is, any other truthy value under [timetables] is wrapped into a
    one-element array, and a falsy return value gives the empty array. *)
Theorem extracted_timetables_form (timetableData : value) :
  is_array (Generator.extract_timetables timetableData) = true
  /\ (forall T,
        prop timetableData "timetables" = JArr T ->
        Generator.extract_timetables timetableData = JArr T)
  /\ (forall l,
        timetableData = JArr l ->
        Generator.extract_timetables timetableData = JArr l)
  /\ (forall x,
        prop timetableData "timetables" = x ->
        truthy x = true -> is_array x = false ->
        Generator.extract_timetables timetableData = JArr [x])
  /\ (truthy timetableData = false ->
      Generator.extract_timetables timetableData = JArr []).
Proof.
  split; [apply extract_is_array|].
  assert (Hobj : forall x, prop timetableData "timetables" = x ->
                           truthy x = true -> truthy timetableData = true).
  { intros x Hx Ht. destruct (prop_object_inv timetableData "timetables")
      as [o ->]; [|reflexivity].
    rewrite Hx. intro Hu. rewrite Hu in Ht. discriminate. }
  repeat split.
  - intros T HT. unfold Generator.extract_timetables.
    rewrite (Hobj _ HT eq_refl), HT. reflexivity.
  - intros l ->. reflexivity.
  - intros x Hx Ht Harr. unfold Generator.extract_timetables.
    rewrite (Hobj _ Hx Ht), Hx. unfold or_else. decide_ifs.
    rewrite Harr. cbn [negb]. now decide_ifs.
  - intro Hf. unfold Generator.extract_timetables. now rewrite Hf.
Qed.

Lemma extracted_timetables_form_witness :
  Generator.extract_timetables
    (JObj [("timetables", JObj [("title", JStr "A")])])
  = JArr [JObj [("title", JStr "A")]]
  /\ Generator.extract_timetables JUndefined = JArr [].
Proof.
  split.
  - apply (proj1 (proj2 (proj2 (proj2
             (extracted_timetables_form
                (JObj [("timetables", JObj [("title", JStr "A")])])))))
             (JObj [("title", JStr "A")])); reflexivity.
  - apply (proj2 (proj2 (proj2 (proj2
             (extracted_timetables_form JUndefined))))). reflexivity.
Defined.

Lemma events_since_after (w : world) (c : nat) (tr : list event) :
  events_since w (after_calls w c tr) = tr.
Proof.
  unfold events_since, after_calls. cbn [trace].
  rewrite skipn_app, skipn_all, Nat.sub_diag. reflexivity.
Qed.

(** X13. [handleGenerate] does nothing at all, and sends no request, when
    no file is selected or a run is in progress; and when the choice of
    generations does not parse to a positive number (the empty choice, "0",
    a negative number, text) it only sets the error "Please select the
    number of generations.", again without any request. *)
Theorem handleGenerate_guards (ToString JSON_stringify : value -> string)
    (env : optimizer_env) (net : script) (s : Generator.state) (w : world) :
  (truthy (Generator.selectedFile s) = false
   \/ Generator.isProcessing s = true ->
   Generator.handleGenerate ToString JSON_stringify env net s w
   = (Ok (s, false), w))
  /\ (truthy (Generator.selectedFile s) = true ->
      Generator.isProcessing s = false ->
      finite_positive (parseInt (Generator.generations s) 10) = false ->
      Generator.handleGenerate ToString JSON_stringify env net s w
      = (Ok (Generator.setError "Please select the number of generations." s,
             false), w))
  /\ Forall (fun choice => finite_positive (parseInt choice 10) = false)
       [""; "0"; "-5"; "ten"; "  "]
  /\ Forall (fun choice => finite_positive (parseInt choice 10) = true)
       ["1"; "5"; "10"; "50"; "100"].
Proof.
  unfold Generator.handleGenerate. repeat split.
  - intros [H|H]; rewrite H; cbn [negb orb]; [reflexivity|].
    now rewrite orb_true_r.
  - intros Hfile Hproc Hgens. now rewrite Hfile, Hproc, Hgens.
  - repeat constructor.
  - repeat constructor.
Qed.

Lemma handleGenerate_guards_witness :
  Generator.handleGenerate (fun _ => "") (fun _ => "") no_env cooperative
    (Generator.handleFileSelect sample_file Generator.initial) start
  = (Ok (Generator.setError "Please select the number of generations."
           (Generator.handleFileSelect sample_file Generator.initial),
         false), start)
  /\ Generator.handleGenerate (fun _ => "") (fun _ => "") no_env cooperative
       Generator.initial start
     = (Ok (Generator.initial, false), start).
Proof.
  split.
  - apply (proj1 (proj2 (handleGenerate_guards (fun _ => "") (fun _ => "")
                           no_env cooperative
                           (Generator.handleFileSelect sample_file
                              Generator.initial) start)));
      reflexivity.
  - apply (proj1 (handleGenerate_guards (fun _ => "") (fun _ => "")
                    no_env cooperative Generator.initial start)).
    now left.
Defined.

(** How [startGeneration] ends. *)
Lemma startGeneration_shape (ToString : value -> string)
    (env : optimizer_env) (net : script) (generations : string)
    (currentUploadId : value) (s : Generator.state) (w : world) :
  exists c tr u,
    (1 <= c <= 363)%nat
    /\ ((exists timetableData,
            Generator.startGeneration ToString env net generations
              currentUploadId s w
            = (Ok tt,
               (Generator.setGeneratedData
                  (Generator.extract_timetables timetableData)
                  (Generator.show 100 "Complete!"
                     (Generator.setView u
                        (Generator.show 30 "Starting timetable generation..."
                           s))),
                true),
               after_calls w c tr))
        \/ (exists reason,
              reason <> ""
              /\ Generator.startGeneration ToString env net generations
                   currentUploadId s w
                 = (Throw (Error ("Timetable generation failed: " ++ reason)),
                    (Generator.setView u
                       (Generator.show 30 "Starting timetable generation..."
                          s),
                     false),
                    after_calls w c tr))).
Proof.
  destruct (generateTimetable_shape ToString env net currentUploadId
              (Generator.generation_options generations) true w)
    as (c & tr & Hc & [(timetableData & Hrun & _) | (reason & Hne & Hrun)]).
  - exists c, tr. eexists. split; [exact Hc|]. left. exists timetableData.
    unfold Generator.startGeneration. rewrite Hrun. cbn [fst snd].
    rewrite events_since_after. reflexivity.
  - exists c, tr. eexists. split; [exact Hc|]. right. exists reason.
    split; [exact Hne|].
    unfold Generator.startGeneration. rewrite Hrun. cbn [fst snd].
    rewrite events_since_after. reflexivity.
Qed.

Lemma generation_failed_error (err : exn) (s : Generator.state) :
  Generator.error (Generator.generation_failed err s) <> "".
Proof.
  destruct err as [m]. unfold Generator.generation_failed. cbn.
  destruct (m =? "") eqn:Hm; [discriminate|]. now apply String.eqb_neq.
Qed.

(** X14. A run of [handleGenerate] that passes the guards always comes to
    an end, after at most 366 requests, and never leaves the component
    processing: once the handler has returned and its timer, if any, has
    fired, [isProcessing] is false, the progress is 0 and the progress text
    is empty.  A success shows 100 and "Complete!" until the timer fires,
    stores an array as generated data and holds a truthy upload id; its
    error text is empty after a fresh upload and is the previous one when
    an earlier upload id was reused.  A failure stores an error text that
    is not empty. *)
Theorem handleGenerate_settles (ToString JSON_stringify : value -> string)
    (env : optimizer_env) (net : script) (s : Generator.state) (w : world) :
  truthy (Generator.selectedFile s) = true ->
  Generator.isProcessing s = false ->
  finite_positive (parseInt (Generator.generations s) 10) = true ->
  exists l c tr,
    Generator.handleGenerate ToString JSON_stringify env net s w
    = (Ok l, after_calls w c tr)
    /\ (1 <= c <= 366)%nat
    /\ Generator.isProcessing (Generator.settle l) = false
    /\ Generator.view (Generator.settle l)
       = {| progress := Num.of_Z 0; progressText := JStr "" |}
    /\ ((snd l = true
         /\ Generator.view (fst l)
            = {| progress := Num.of_Z 100; progressText := JStr "Complete!" |}
         /\ is_array (Generator.generatedData (fst l)) = true
         /\ truthy (Generator.uploadId (fst l)) = true
         /\ Generator.error (fst l)
            = (if truthy (Generator.uploadId s) then Generator.error s
               else ""))
        \/ (snd l = false
            /\ Generator.isProcessing (fst l) = false
            /\ Generator.error (fst l) <> "")).
Proof.
  intros Hfile Hproc Hgens.
  unfold Generator.handleGenerate. rewrite Hfile, Hproc, Hgens.
  cbn [negb orb]. destruct (truthy (Generator.uploadId s)) eqn:Hid;
    cbn [negb].
  - match goal with
    | |- context [Generator.startGeneration ?f ?e ?n ?g ?i ?s1 ?w1] =>
        destruct (startGeneration_shape f e n g i s1 w1)
          as (c & tr & u & Hc & [(td & Hrun) | (reason & Hne & Hrun)]);
        rewrite Hrun
    end.
    + eexists. exists c, tr. split; [reflexivity|]. split; [lia|].
      split; [reflexivity|]. split; [reflexivity|]. left.
      cbn [fst snd]. repeat split.
      * apply extract_is_array.
      * exact Hid.
    + eexists. exists c, tr. split; [reflexivity|]. split; [lia|].
      split; [reflexivity|]. split; [reflexivity|]. right.
      cbn [fst snd]. repeat split. apply generation_failed_error.
  - destruct (upload_shape JSON_stringify net
                (Generator.form_data (Generator.selectedFile s)) w)
      as (c0 & tr0 & Hc0 & _ &
          [(id & data & Hidt & _ & Hup) | (reason & Hne & _ & Hup)]);
      rewrite Hup.
    + match goal with
      | |- context [Generator.startGeneration ?f ?e ?n ?g ?i ?s1 ?w1] =>
          destruct (startGeneration_shape f e n g i s1 w1)
            as (c & tr & u & Hc & [(td & Hrun) | (reason & Hne & Hrun)]);
          rewrite Hrun
      end.
      * rewrite after_calls_comp.
        eexists. exists (c0 + c)%nat, (tr0 ++ tr)%list.
        split; [reflexivity|]. split; [lia|].
        split; [reflexivity|]. split; [reflexivity|]. left.
        cbn [fst snd]. repeat split.
        -- apply extract_is_array.
        -- exact Hidt.
      * rewrite after_calls_comp.
        eexists. exists (c0 + c)%nat, (tr0 ++ tr)%list.
        split; [reflexivity|]. split; [lia|].
        split; [reflexivity|]. split; [reflexivity|]. right.
        cbn [fst snd]. repeat split. apply generation_failed_error.
    + eexists. exists c0, tr0. split; [reflexivity|]. split; [lia|].
      split; [reflexivity|]. split; [reflexivity|]. right.
      cbn [fst snd]. repeat split. apply generation_failed_error.
Qed.

Lemma handleGenerate_settles_witness :
  exists l c tr,
    Generator.handleGenerate (fun _ => "") (fun _ => "") no_env cooperative
      ready start
    = (Ok l, after_calls start c tr)
    /\ (1 <= c <= 366)%nat
    /\ Generator.isProcessing (Generator.settle l) = false
    /\ Generator.view (Generator.settle l)
       = {| progress := Num.of_Z 0; progressText := JStr "" |}
    /\ ((snd l = true
         /\ Generator.view (fst l)
            = {| progress := Num.of_Z 100; progressText := JStr "Complete!" |}
         /\ is_array (Generator.generatedData (fst l)) = true
         /\ truthy (Generator.uploadId (fst l)) = true
         /\ Generator.error (fst l)
            = (if truthy (Generator.uploadId ready) then Generator.error ready
               else ""))
        \/ (snd l = false
            /\ Generator.isProcessing (fst l) = false
            /\ Generator.error (fst l) <> "")).
Proof.
  exact (handleGenerate_settles (fun _ => "") (fun _ => "") no_env
           cooperative ready start eq_refl eq_refl eq_refl).
Defined.

(** X15. Selecting a file forgets the upload id, the generated data, the
    error and the choice of generations, whatever they were, and leaves
    [isProcessing] as it was.  Right after it neither handler sends a
    request.  [handleDownload] reports the missing upload id.
    [handleGenerate] asks for the number of generations when the file is
    truthy and no run is in progress; when a run is in progress, or the
    file is falsy, it returns at its first guard and the state stays as the
    selection left it, with the error empty. *)
Theorem new_file_starts_over (ToString JSON_stringify : value -> string)
    (env : optimizer_env) (net : script) (timestamp format : string)
    (file : value) (s : Generator.state) (w : world) :
  let s' := Generator.handleFileSelect file s in
  Generator.uploadId s' = JNull
  /\ Generator.generatedData s' = JArr []
  /\ Generator.error s' = ""
  /\ Generator.generations s' = ""
  /\ Generator.isProcessing s' = Generator.isProcessing s
  /\ Generator.handleDownload ToString net timestamp format s' w
     = (Ok (Generator.setError
              "No timetable data available for download - missing upload ID"
              s'), w)
  /\ (truthy file = true ->
      Generator.isProcessing s = false ->
      Generator.handleGenerate ToString JSON_stringify env net s' w
      = (Ok (Generator.setError "Please select the number of generations." s',
             false), w))
  /\ (Generator.isProcessing s = true \/ truthy file = false ->
      Generator.handleGenerate ToString JSON_stringify env net s' w
      = (Ok (s', false), w)).
Proof.
  repeat split.
  - intros Hfile Hproc.
    unfold Generator.handleGenerate. cbn [Generator.handleFileSelect
      Generator.selectedFile Generator.isProcessing Generator.generations
      Generator.setAwaitingGenerations Generator.setGenerations
      Generator.setUploadId Generator.setGeneratedData Generator.setError
      Generator.setSelectedFile].
    now rewrite Hfile, Hproc.
  - intros Hguard.
    unfold Generator.handleGenerate. cbn [Generator.handleFileSelect
      Generator.selectedFile Generator.isProcessing Generator.generations
      Generator.setAwaitingGenerations Generator.setGenerations
      Generator.setUploadId Generator.setGeneratedData Generator.setError
      Generator.setSelectedFile].
    destruct Hguard as [Hproc | Hfile].
    + rewrite Hproc, orb_true_r. reflexivity.
    + rewrite Hfile. reflexivity.
Qed.

Lemma new_file_starts_over_witness :
  Generator.handleGenerate (fun _ => "") (fun _ => "") no_env cooperative
    (Generator.handleFileSelect sample_file generated) start
  = (Ok (Generator.setError "Please select the number of generations."
           (Generator.handleFileSelect sample_file generated), false), start)
  /\ Generator.handleGenerate (fun _ => "") (fun _ => "") no_env cooperative
       (Generator.handleFileSelect sample_file
          (Generator.setIsProcessing true generated)) start
     = (Ok (Generator.handleFileSelect sample_file
              (Generator.setIsProcessing true generated), false), start).
Proof.
  split.
  - apply (new_file_starts_over (fun _ => "") (fun _ => "") no_env cooperative
             "2025-01-15" "excel" sample_file generated start); reflexivity.
  - apply (new_file_starts_over (fun _ => "") (fun _ => "") no_env cooperative
             "2025-01-15" "excel" sample_file
             (Generator.setIsProcessing true generated) start).
    left. reflexivity.
Defined.

Lemma setError_same (s : Generator.state) :
  Generator.setError (Generator.error s) s = s.
Proof. now destruct s. Qed.

(** X16. [handleDownload] changes nothing but the error text.  Without an
    upload id, or with no generated data, it sends no request and sets an
    error; otherwise it sends one to three requests and either one file is
    saved and the state is unchanged, or no file is saved and the error
    text starts with "Download failed: ". *)
Theorem handleDownload_guards (ToString : value -> string) (net : script)
    (timestamp format : string) (s : Generator.state) (w : world) :
  exists s' c tr,
    Generator.handleDownload ToString net timestamp format s w
    = (Ok s', after_calls w c tr)
    /\ s' = Generator.setError (Generator.error s') s
    /\ (truthy (Generator.uploadId s) = false
        \/ length_is_zero (Generator.generatedData s) = true ->
        c = 0%nat /\ tr = [] /\ Generator.error s' <> "")
    /\ (truthy (Generator.uploadId s) = true ->
        length_is_zero (Generator.generatedData s) = false ->
        (1 <= c <= 3)%nat
        /\ ((downloads tr = [download_filename timestamp format] /\ s' = s)
            \/ (downloads tr = []
                /\ exists reason,
                    Generator.error s' = "Download failed: " ++ reason))).
Proof.
  unfold Generator.handleDownload.
  destruct (truthy (Generator.uploadId s)) eqn:Hid; cbn [negb].
  2:{ eexists. exists 0%nat, []. rewrite <- after_calls_0.
      split; [reflexivity|]. split; [reflexivity|].
      split; [intros _; repeat split; discriminate | discriminate]. }
  destruct (length_is_zero (Generator.generatedData s)) eqn:Hdata.
  { eexists. exists 0%nat, []. rewrite <- after_calls_0.
    split; [reflexivity|]. split; [reflexivity|].
    split; [intros _; repeat split; discriminate | discriminate]. }
  destruct (download_shape net timestamp
              (text_of ToString (Generator.uploadId s)) format w)
    as (c & tr & Hc & [[Hrun Hdl] | (reason & Hrun & Hdl)]); rewrite Hrun.
  - exists s, c, tr. split; [reflexivity|].
    split; [now rewrite setError_same|].
    split; [intros [H|H]; discriminate|].
    intros _ _. split; [exact Hc|]. now left.
  - eexists. exists c, tr. split; [reflexivity|].
    split; [reflexivity|].
    split; [intros [H|H]; discriminate|].
    intros _ _. split; [exact Hc|]. right. split; [exact Hdl|].
    exists reason. cbn [message Generator.error Generator.setError].
    destruct (("Download failed: " ++ reason) =? "") eqn:H; [|reflexivity].
    apply String.eqb_eq in H. discriminate H.
Qed.

Lemma handleDownload_guards_witness :
  exists s' c tr,
    Generator.handleDownload (fun _ => "") cooperative "2025-01-15" "pdf"
      generated start
    = (Ok s', after_calls start c tr)
    /\ (1 <= c <= 3)%nat
    /\ ((downloads tr = ["timetable_2025-01-15.pdf"] /\ s' = generated)
        \/ (downloads tr = []
            /\ exists reason,
                Generator.error s' = "Download failed: " ++ reason)).
Proof.
  destruct (handleDownload_guards (fun _ => "") cooperative "2025-01-15"
              "pdf" generated start)
    as (s' & c & tr & Hrun & _ & _ & Hsent).
  exists s', c, tr. split; [exact Hrun|]. now apply Hsent.
Defined.

(** ** [FileUpload.validateFile] *)

Lemma split_not_empty (sep : ascii) (s : string) : split sep s <> [].
Proof.
  destruct s as [|c s]; cbn [split]; [discriminate|].
  destruct (c =? sep)%char; [discriminate|].
  destruct (split sep s); discriminate.
Qed.

(** A string without the separator is its only segment. *)
Lemma split_without_separator (sep : ascii) (s : string) :
  all_chars (fun c => negb (c =? sep)%char) s = true -> split sep s = [s].
Proof.
  induction s as [|c s IH]; cbn [all_chars split]; intro H; [reflexivity|].
  apply andb_prop in H. destruct H as [Hc Hs].
  apply negb_true_iff in Hc. rewrite Hc, (IH Hs). reflexivity.
Qed.

Lemma split_app_separator (sep : ascii) (a b : string) :
  split sep (a ++ String sep b) = (split sep a ++ split sep b)%list.
Proof.
  induction a as [|c a IH]; cbn [append split].
  - now rewrite Ascii.eqb_refl.
  - rewrite IH. destruct (c =? sep)%char; [reflexivity|].
    destruct (split sep a) as [|first others] eqn:Ha; [|reflexivity].
    now apply split_not_empty in Ha.
Qed.

(** The last segment of a name is what follows its last dot. *)
Lemma pop_split_extension (stem ext : string) :
  all_chars not_dot ext = true ->
  pop (split "." (stem ++ "." ++ ext)) = ext
  /\ pop (split "." ext) = ext.
Proof.
  intro Hext. unfold pop. split.
  - change (stem ++ "." ++ ext) with (stem ++ String "." ext).
    rewrite split_app_separator, (split_without_separator "." ext Hext).
    apply last_last.
  - now rewrite (split_without_separator "." ext Hext).
Qed.

Lemma lower_ascii_idempotent (c : ascii) :
  lower_ascii (lower_ascii c) = lower_ascii c.
Proof. destruct c as [[] [] [] [] [] [] [] []]; reflexivity. Qed.

Lemma lower_ascii_not_dot (c : ascii) :
  not_dot c = true -> not_dot (lower_ascii c) = true.
Proof. destruct c as [[] [] [] [] [] [] [] []]; intro H; exact H || reflexivity. Qed.

Lemma toLowerCase_idempotent (s : string) :
  toLowerCase (toLowerCase s) = toLowerCase s.
Proof.
  induction s as [|c s IH]; cbn [toLowerCase]; [reflexivity|].
  now rewrite lower_ascii_idempotent, IH.
Qed.

Lemma toLowerCase_not_dot (s : string) :
  all_chars not_dot s = true -> all_chars not_dot (toLowerCase s) = true.
Proof.
  induction s as [|c s IH]; cbn [toLowerCase all_chars]; intro H;
    [reflexivity|].
  apply andb_prop in H. destruct H as [Hc Hs].
  now rewrite (lower_ascii_not_dot c Hc), (IH Hs).
Qed.

(** X17. [validateFile] looks only at what follows the last dot of the
    name, in lower case: a name [stem.ext] is judged as the name [ext]
    written in lower case alone would be, whatever the stem and the case,
    and so is a name that is [ext] without any dot. *)
Theorem validateFile_reads_last_extension (env : FileUpload.settings)
    (stem ext : string) (size : Z) :
  all_chars not_dot ext = true ->
  FileUpload.validateFile env
    {| FileUpload.name := stem ++ "." ++ ext; FileUpload.size := size |}
  = FileUpload.validateFile env
      {| FileUpload.name := toLowerCase ext; FileUpload.size := size |}
  /\ FileUpload.validateFile env
       {| FileUpload.name := ext; FileUpload.size := size |}
     = FileUpload.validateFile env
         {| FileUpload.name := toLowerCase ext; FileUpload.size := size |}.
Proof.
  intro Hext.
  destruct (pop_split_extension stem ext Hext) as [Hstem Hbare].
  destruct (pop_split_extension "" (toLowerCase ext)
              (toLowerCase_not_dot ext Hext)) as [_ Hlower].
  unfold FileUpload.validateFile, FileUpload.fileExtension.
  cbn [FileUpload.name FileUpload.size].
  now rewrite Hstem, Hbare, Hlower, toLowerCase_idempotent.
Qed.

Lemma validateFile_reads_last_extension_witness :
  FileUpload.validateFile FileUpload.defaults
    {| FileUpload.name := "second.year.final" ++ "." ++ "XLSX";
       FileUpload.size := 2048 |}
  = FileUpload.Accepted
  /\ FileUpload.validateFile FileUpload.defaults
       {| FileUpload.name := "XLSX"; FileUpload.size := 2048 |}
     = FileUpload.Accepted.
Proof.
  destruct (validateFile_reads_last_extension FileUpload.defaults
              "second.year.final" "XLSX" 2048 eq_refl) as [-> ->].
  split; reflexivity.
Defined.

Lemma maxSize_is_a_number (env : FileUpload.settings) :
  Num.is_NaN (FileUpload.maxSize env) = false.
Proof.
  unfold FileUpload.maxSize.
  match goal with
  | |- context [truthy (JNum ?n)] => destruct n eqn:Hn
  end; cbn [truthy Num.is_NaN Num.is_zero orb negb]; try reflexivity.
  now destruct (negb _).
Qed.

(** X18. [validateFile] accepts a file exactly when its extension is one
    of the allowed ones and its size is at most the limit; the limit is
    10485760 bytes when the environment sets none.  A file of exactly the
    limit is accepted, and a larger one with an allowed extension is
    refused with the alert "File size must be less than 10MB". *)
Theorem validateFile_accepts (env : FileUpload.settings)
    (f : FileUpload.file) :
  (FileUpload.validateFile env f = FileUpload.Accepted <->
   includes_string (FileUpload.allowedTypes env) (FileUpload.fileExtension f)
   = true
   /\ Num.le (Num.of_Z (FileUpload.size f)) (FileUpload.maxSize env))
  /\ (includes_string (FileUpload.allowedTypes env)
        (FileUpload.fileExtension f) = true ->
      ~ Num.le (Num.of_Z (FileUpload.size f)) (FileUpload.maxSize env) ->
      FileUpload.validateFile env f
      = FileUpload.Refused "File size must be less than 10MB")
  /\ FileUpload.maxSize FileUpload.defaults = Num.of_Z 10485760
  /\ FileUpload.allowedTypes FileUpload.defaults = [".xlsx"; ".xls"].
Proof.
  assert (Hgt : greater (Num.of_Z (FileUpload.size f)) (FileUpload.maxSize env)
                = negb (Num.leb (Num.of_Z (FileUpload.size f))
                          (FileUpload.maxSize env))).
  { unfold greater. now rewrite maxSize_is_a_number. }
  unfold FileUpload.validateFile, Num.le. rewrite Hgt.
  destruct (includes_string _ _); cbn [negb];
    destruct (Num.leb _ _); cbn [negb]; repeat split;
    try reflexivity; try discriminate; try tauto;
    try (intros [H1 H2]; discriminate); try (intros H1 H2; congruence).
Qed.

Lemma validateFile_accepts_witness :
  FileUpload.validateFile FileUpload.defaults
    {| FileUpload.name := "courses.xlsx"; FileUpload.size := 10485760 |}
  = FileUpload.Accepted
  /\ FileUpload.validateFile FileUpload.defaults
       {| FileUpload.name := "courses.xlsx"; FileUpload.size := 10485761 |}
     = FileUpload.Refused "File size must be less than 10MB".
Proof.
  split.
  - apply (proj1 (validateFile_accepts FileUpload.defaults
                    {| FileUpload.name := "courses.xlsx";
                       FileUpload.size := 10485760 |})).
    split; reflexivity.
  - apply (proj1 (proj2 (validateFile_accepts FileUpload.defaults
                           {| FileUpload.name := "courses.xlsx";
                              FileUpload.size := 10485761 |})));
      [reflexivity | discriminate].
Defined.

(** X19. The extension compared always starts with a dot, so when none
    of the allowed types of the environment starts with a dot (the variable
    set to the empty string, or to "xlsx,xls") every file is refused with
    the alert about the type. *)
Theorem allowed_types_need_the_dot (env : FileUpload.settings)
    (f : FileUpload.file) :
  Forall (fun type => String.prefix "." type = false)
    (FileUpload.allowedTypes env) ->
  FileUpload.validateFile env f
  = FileUpload.Refused "Please select a valid Excel file (.xlsx or .xls)".
Proof.
  intro Hall. unfold FileUpload.validateFile.
  assert (Hnone : includes_string (FileUpload.allowedTypes env)
                    (FileUpload.fileExtension f) = false).
  { unfold includes_string. induction Hall as [|type types Htype _ IH];
      cbn [existsb]; [reflexivity|].
    rewrite IH, orb_false_r. unfold FileUpload.fileExtension.
    destruct type as [|c type]; [reflexivity|].
    cbn [append String.eqb]. cbn [String.prefix] in Htype.
    destruct (ascii_dec "." c) as [<-|Hc].
    - now destruct type.
    - destruct (Ascii.eqb_spec "." c); [contradiction | reflexivity]. }
  now rewrite Hnone.
Qed.

Lemma allowed_types_need_the_dot_witness :
  FileUpload.validateFile
    {| FileUpload.ALLOWED_FILE_TYPES := Some "xlsx,xls";
       FileUpload.MAX_FILE_SIZE := None |}
    {| FileUpload.name := "courses.xlsx"; FileUpload.size := 2048 |}
  = FileUpload.Refused "Please select a valid Excel file (.xlsx or .xls)"
  /\ FileUpload.validateFile
       {| FileUpload.ALLOWED_FILE_TYPES := Some "";
          FileUpload.MAX_FILE_SIZE := None |}
       {| FileUpload.name := "courses.xlsx"; FileUpload.size := 2048 |}
     = FileUpload.Refused "Please select a valid Excel file (.xlsx or .xls)".
Proof.
  split; apply allowed_types_need_the_dot; repeat constructor.
Defined.

(** ** Two more facts on the poller and the wrapper *)

(** X20. The merge of a completed result can fail: when the result has a
    truthy [parsed_timetables] and a [timetables] that is truthy but not an
    array (an object keyed by name, say), the promise is rejected instead of
    resolved.  The observer has had the call of that poll but not the
    "Completed" one, and no further poll is made. *)
Theorem completed_poll_rejects_without_array (net : script)
    (uploadId : string) (progressCallback : bool) (fuel : nat) (attempts : Z)
    (w : world) (statusResponse result0 : value) :
  net (calls w) = Fulfilled statusResponse ->
  is_string (n_status (normalize (status_data statusResponse))) "completed"
  = true ->
  prop (status_data statusResponse) "result" = result0 ->
  truthy (prop result0 "parsed_timetables") = true ->
  truthy (prop result0 "timetables") = true ->
  is_array (prop result0 "timetables") = false ->
  exists reason,
    checkStatus net uploadId progressCallback (S fuel) attempts w
    = (Ok (Rejected reason, (attempts + 1)%Z),
       after_calls w 1
         (Call :: if progressCallback
                  then [Observe (poll_call statusResponse)] else [])).
Proof.
  intros Hnet Hcompleted Hresult Hparsed Htimetables Harray.
  destruct (prop_object_inv result0 "timetables") as [o ->].
  { intro H. rewrite H in Htimetables. discriminate. }
  cbn [checkStatus]. unfold bind at 1.
  rewrite (poll_once_response net uploadId progressCallback (attempts + 1) w
             _ _ (request_fulfilled net _ w _ Hnet)).
  rewrite Hcompleted, n_result_normalize, Hresult. cbn [truthy].
  unfold merge_result. rewrite Htimetables. cbn [negb andb].
  rewrite Hparsed, Htimetables. cbn [andb].
  destruct (prop (JObj o) "timetables"); try discriminate;
    unfold throw, ret; rewrite after_calls_comp; eexists; reflexivity.
Qed.

Lemma completed_poll_rejects_without_array_witness :
  exists reason,
    checkStatus (always keyed_timetables) "job" true 1 0 start
    = (Ok (Rejected reason, 1%Z),
       after_calls start 1
         [Call;
          Observe
            (poll_call (JObj [("data", keyed_timetables);
                              ("status", JInt 200)]))]).
Proof.
  apply (completed_poll_rejects_without_array (always keyed_timetables)
           "job" true 0 0 start
           (JObj [("data", keyed_timetables); ("status", JInt 200)])
           (prop keyed_timetables "result")); reflexivity.
Defined.

Lemma retry_loop_pattern (requestFn : script) (retries : Z) :
  forall (fuel : nat) (i : Z) (w : world),
    (i < retries)%Z ->
    (Z.to_nat (retries - i) <= fuel)%nat ->
    exists r m,
      (i + Z.of_nat m < retries)%Z
      /\ r <> OutOfFuel
      /\ retry_loop (invoke requestFn) retries fuel i w
         = (r, after_calls w (S m) (retry_trace i m)).
Proof.
  induction fuel as [|fuel IH]; intros i w Hi Hfuel; [lia|].
  cbn [retry_loop]. replace (i <? retries)%Z with true by lia.
  unfold try_catch at 1, invoke at 1.
  assert (Hw1 : {| calls := S (calls w); trace := trace w ++ [Call] |}
                = after_calls w 1 (retry_trace i 0)).
  { unfold after_calls. cbn [retry_trace]. f_equal. lia. }
  rewrite Hw1.
  destruct (requestFn (calls w)) as [v|e].
  - exists (Ok v), 0%nat. repeat split; [lia | discriminate].
  - destruct (i =? retries - 1)%Z eqn:Hlast.
    { exists (Throw e), 0%nat. repeat split; [lia | discriminate]. }
    destruct (transient e).
    2:{ exists (Throw e), 0%nat. repeat split; [lia | discriminate]. }
    unfold bind at 1, sleep at 1, emit at 1. rewrite after_calls_emit.
    destruct (IH (i + 1)%Z
                (after_calls w 1 (retry_trace i 0 ++ [Wait (1000 * (i + 1))]))
                ltac:(lia) ltac:(lia))
      as (r & m & Hm & Hr & Hrun).
    rewrite Hrun, after_calls_comp.
    exists r, (S m). split; [lia|]. split; [exact Hr|].
    cbn [retry_trace app Nat.add]. reflexivity.
Qed.

(** X21. Whatever the request function does, a run of the wrapper with a
    positive budget is a number of invocations that is at least one and at
    most the budget, with one wait between two invocations and none after
    the last: 1000 ms, then 2000 ms, and so on.  With the default budget
    the waits are none, 1000 or 1000 and 2000. *)
Theorem retry_run_pattern (requestFn : script) (retries : Z) (w : world) :
  (0 < retries)%Z ->
  exists r m,
    (Z.of_nat m < retries)%Z
    /\ r <> OutOfFuel
    /\ makeRequestWithRetry (invoke requestFn) retries w
       = (r, after_calls w (S m) (retry_trace 0 m))
    /\ invocations (retry_trace 0 m) = S m
    /\ waits (retry_trace 0 m)
       = map (fun k => (1000 * Z.of_nat k)%Z) (seq 1 m)
    /\ (retries = default_retries ->
        In (waits (retry_trace 0 m)) [[]; [1000]; [1000; 2000]]%Z).
Proof.
  intro Hpos.
  destruct (retry_loop_pattern requestFn retries (Z.to_nat retries) 0 w
              Hpos ltac:(lia))
    as (r & m & Hm & Hr & Hrun).
  exists r, m. split; [lia|]. split; [exact Hr|]. split; [exact Hrun|].
  split; [apply retry_trace_invocations|]. split.
  - rewrite retry_trace_waits. apply map_ext. intro k. f_equal.
  - intros ->. unfold default_retries in Hm.
    destruct m as [|[|[|m]]]; cbn; auto; lia.
Qed.

Lemma retry_run_pattern_witness :
  exists r m,
    (Z.of_nat m < default_retries)%Z
    /\ makeRequestWithRetry (invoke flaky) default_retries start
       = (r, after_calls start (S m) (retry_trace 0 m))
    /\ In (waits (retry_trace 0 m)) [[]; [1000]; [1000; 2000]]%Z.
Proof.
  destruct (retry_run_pattern flaky default_retries start eq_refl)
    as (r & m & Hm & _ & Hrun & _ & _ & Hwaits).
  exists r, m. split; [exact Hm|]. split; [exact Hrun|]. now apply Hwaits.
Defined.
